(** * A shallow embedding of [src/app.js]

  The service is an Express application: two middlewares
  ([express.json()], [express.static('public')]), three routes, an error
  handling middleware and a 404 handler, registered in that order.  The
  development below embeds the JavaScript values the handlers see, the ISO
  date formatting used by the health check, Express' layer dispatch with
  the state that handlers could share, and then the application itself,
  layer by layer.  What the libraries decide from things the file never
  looks at (the files under [public/], the validators of a conditional
  request, the socket the server binds) is taken from the platform the
  process runs on. *)

From stdpp Require Import gmap strings list numbers option pretty sorting.
From Stdlib Require Import ZArith QArith Qcanon Ascii String Lia.

#[local] Set Warnings "-register-all".
#[local] Open Scope Z_scope.

(* ===================================================================== *)
(** ** JavaScript values *)
(* ===================================================================== *)

Module Js.

(** A Number: a finite binary64, kept as the rational it denotes (the
    two zeros, equal as Numbers, are one), one of the two infinities, or
    NaN.  [JSON.parse] reads a literal beyond the binary64 range, such
    as [1e400], as [Infinity]. *)
Inductive number :=
  | Exact (q : Qc)
  | Infinity (negative : bool)
  | NaN.

(** The values that flow through the handlers: what [JSON.parse] can
    produce, [undefined], and what the handlers build themselves.
    Objects are finite maps from property names to values. *)
Inductive value :=
  | VUndefined
  | VNull
  | VBool (b : bool)
  | VNum (n : number)
  | VStr (s : string)
  | VArr (items : list value)
  | VObj (props : gmap string value).

(** An integral Number, as written in the source ([1], [2], [3000]) or
    returned by [Date.now()]. *)
Definition VInt (z : Z) : value := VNum (Exact (Qc_of_Z z)).

(** [ToBoolean]: what [!x] and [x || y] test. *)
Definition truthy (v : value) : bool :=
  match v with
  | VUndefined | VNull => false
  | VBool b => b
  | VNum (Exact q) => negb (bool_decide (q = 0%Qc))
  | VNum (Infinity _) => true
  | VNum NaN => false
  | VStr s => negb (bool_decide (s = ""))
  | VArr _ | VObj _ => true
  end.

(** A thrown exception: its constructor name, its message and the
    [stack] text that [console.error(err.stack)] prints. *)
Record error := Error {
  err_name : string;
  err_message : string;
  err_stack : string
}.

Definition nullish (v : value) : bool :=
  match v with
  | VUndefined | VNull => true
  | _ => false
  end.

(** Property [k] of a value that is neither [undefined] nor [null]: an
    object yields its own property or [undefined]; arrays and primitives
    have neither a [name] nor an [email] property, and are only ever
    asked for those. *)
Definition get (k : string) (v : value) : value :=
  match v with
  | VObj props => default VUndefined (props !! k)
  | _ => VUndefined
  end.

(** Reading one property in a destructuring pattern
    [const { k } = src], where the expression [src] has the value [v].
    [undefined] and [null] cannot be destructured: the engine throws a
    [TypeError], whose stack is the message followed by the call frames
    [frames]. *)
Definition destructure (frames : string) (k src : string) (v : value)
  : error + value :=
  if nullish v then
    let msg := "Cannot destructure property '" +:+ k +:+ "' of '" +:+ src
               +:+ "' as it is "
               +:+ (match v with VNull => "null" | _ => "undefined" end)
               +:+ "." in
    inl (Error "TypeError" msg ("TypeError: " +:+ msg +:+ frames))
  else inr (get k v).

(** [JSON.stringify] writes an [undefined] array element as [null] and
    leaves an [undefined] property out. *)
Definition element (json : value -> value) (x : value) : value :=
  match x with
  | VUndefined => VNull
  | _ => json x
  end.

Definition member (json : value -> value) (x : value) : option value :=
  match x with
  | VUndefined => None
  | _ => Some (json x)
  end.

(** The value a client reads off the text [JSON.stringify] writes for
    [v]: a Number that is not finite is written as [null]; everything
    JSON can represent is written as it is. *)
Fixpoint jsonify (v : value) : value :=
  match v with
  | VNum (Exact q) => VNum (Exact q)
  | VNum _ => VNull
  | VArr items => VArr (map (element jsonify) items)
  | VObj props => VObj (omap (member jsonify) props)
  | _ => v
  end.



(** ASCII lower-casing, the case folding of a [/.../i] regular
    expression on a route path. *)
Definition lower_ascii (c : ascii) : ascii :=
  let n := N_of_ascii c in
  if ((65 <=? n) && (n <=? 90))%N then ascii_of_N (n + 32) else c.

Fixpoint lower (s : string) : string :=
  match s with
  | EmptyString => EmptyString
  | String c s' => String (lower_ascii c) (lower s')
  end.

End Js.

(* ===================================================================== *)
(** ** [Date.prototype.toISOString] *)
(* ===================================================================== *)

Module IsoDate.

Definition msPerDay : Z := 86400000.

(** Time values a [Date] can hold (ECMAScript [TimeClip]). *)
Definition valid_time (t : Z) : Prop :=
  -8640000000000000 <= t <= 8640000000000000.

(** Calendar fields of a time value. *)
Record fields := Fields {
  year : Z; month : Z; day : Z;
  hour : Z; minute : Z; second : Z; milli : Z
}.

(** Year, month (1..12) and day of month (1..31) of a day number counted
    from 1970-01-01, in the proleptic Gregorian calendar.  The day number
    is shifted to an era of 400 years that starts on 0000-03-01. *)
Definition civil_from_days (d : Z) : Z * Z * Z :=
  let z := d + 719468 in
  let era := z / 146097 in
  let doe := z mod 146097 in
  let yoe := (doe - doe / 1460 + doe / 36524 - doe / 146096) / 365 in
  let doy := doe - (365 * yoe + yoe / 4 - yoe / 100) in
  let mp := (5 * doy + 2) / 153 in
  let dd := doy - (153 * mp + 2) / 5 + 1 in
  let mm := if mp <? 10 then mp + 3 else mp - 9 in
  let yy := yoe + era * 400 + (if mm <=? 2 then 1 else 0) in
  (yy, mm, dd).

Definition fields_of_time (t : Z) : fields :=
  let '(yy, mm, dd) := civil_from_days (t / msPerDay) in
  let r := t mod msPerDay in
  Fields yy mm dd (r / 3600000) (r / 60000 mod 60) (r / 1000 mod 60)
         (r mod 1000).

Definition digit (d : Z) : ascii := ascii_of_N (Z.to_N (48 + d)).

(** [pad n v]: the [n] low decimal digits of [v], most significant
    first, with leading zeros. *)
Fixpoint pad (n : nat) (v : Z) : string :=
  match n with
  | O => EmptyString
  | S n' => String (digit (v / 10 ^ Z.of_nat n' mod 10)) (pad n' v)
  end.

(** Four digits for years 0..9999, otherwise a sign and six digits. *)
Definition year_string (y : Z) : string :=
  if (0 <=? y) && (y <=? 9999) then pad 4 y
  else if y <? 0 then String "-" (pad 6 (- y))
  else String "+" (pad 6 y).

Definition format (f : fields) : string :=
  year_string (year f) +:+ "-" +:+ pad 2 (month f) +:+ "-" +:+ pad 2 (day f)
    +:+ "T" +:+ pad 2 (hour f) +:+ ":" +:+ pad 2 (minute f)
    +:+ ":" +:+ pad 2 (second f) +:+ "." +:+ pad 3 (milli f) +:+ "Z".

Definition toISOString (t : Z) : string := format (fields_of_time t).

(** *** Reading a timestamp back

    The reader is the ECMAScript date-time string format restricted to
    the complete UTC form that [toISOString] emits, followed by
    [MakeDay]/[MakeTime]/[MakeDate]. *)

Definition digit_val (c : ascii) : option Z :=
  let n := Z.of_N (N_of_ascii c) in
  if (48 <=? n) && (n <=? 57) then Some (n - 48) else None.

Fixpoint read_digits (n : nat) (acc : Z) (s : string) : option (Z * string) :=
  match n with
  | O => Some (acc, s)
  | S n' =>
      match s with
      | String c s' => d ← digit_val c; read_digits n' (acc * 10 + d) s'
      | EmptyString => None
      end
  end.

Definition expect (c : ascii) (s : string) : option string :=
  match s with
  | String c' s' => if Ascii.eqb c c' then Some s' else None
  | EmptyString => None
  end.

Definition read_year (s : string) : option (Z * string) :=
  match s with
  | String c s' =>
      if Ascii.eqb c "+" then read_digits 6 0 s'
      else if Ascii.eqb c "-" then
        '(y, r) ← read_digits 6 0 s';
        if y =? 0 then None else Some (- y, r)
      else read_digits 4 0 s
  | EmptyString => None
  end.

Definition read_fields (s : string) : option fields :=
  '(yy, s) ← read_year s;
  s ← expect "-" s; '(mm, s) ← read_digits 2 0 s;
  s ← expect "-" s; '(dd, s) ← read_digits 2 0 s;
  s ← expect "T" s; '(h, s) ← read_digits 2 0 s;
  s ← expect ":" s; '(mi, s) ← read_digits 2 0 s;
  s ← expect ":" s; '(se, s) ← read_digits 2 0 s;
  s ← expect "." s; '(ms, s) ← read_digits 3 0 s;
  s ← expect "Z" s;
  match s with
  | EmptyString => Some (Fields yy mm dd h mi se ms)
  | String _ _ => None
  end.

Definition day_from_year (y : Z) : Z :=
  365 * (y - 1970) + (y - 1969) / 4 - (y - 1901) / 100 + (y - 1601) / 400.

Definition in_leap_year (y : Z) : bool :=
  ((y mod 4 =? 0) && negb (y mod 100 =? 0)) || (y mod 400 =? 0).

(** Days of the year that precede month [m] (1..12). *)
Definition days_before_month (leap : bool) (m : Z) : Z :=
  let l := if leap then 1 else 0 in
  match m with
  | 1 => 0 | 2 => 31 | 3 => 59 + l | 4 => 90 + l | 5 => 120 + l
  | 6 => 151 + l | 7 => 181 + l | 8 => 212 + l | 9 => 243 + l
  | 10 => 273 + l | 11 => 304 + l | _ => 334 + l
  end.

Definition days_in_month (leap : bool) (m : Z) : Z :=
  match m with
  | 2 => if leap then 29 else 28
  | 4 | 6 | 9 | 11 => 30
  | _ => 31
  end.

Definition make_day (y m d : Z) : Z :=
  day_from_year y + days_before_month (in_leap_year y) m + d - 1.

(** Day number of March 1 of year [y]. *)
Definition march_first (y : Z) : Z :=
  365 * y + y / 4 - y / 100 + y / 400 - 719468.

Definition fields_ok (f : fields) : bool :=
  (1 <=? month f) && (month f <=? 12) &&
  (1 <=? day f) && (day f <=? days_in_month (in_leap_year (year f)) (month f)) &&
  (hour f <=? 23) && (minute f <=? 59) && (second f <=? 59).

Definition time_of_fields (f : fields) : Z :=
  make_day (year f) (month f) (day f) * msPerDay
    + hour f * 3600000 + minute f * 60000 + second f * 1000 + milli f.

Definition parse (s : string) : option Z :=
  f ← read_fields s;
  if fields_ok f then Some (time_of_fields f) else None.

End IsoDate.

(* ===================================================================== *)
(** ** Express: requests, responses and layer dispatch *)
(* ===================================================================== *)

Module Express.
Import Js.

(** What [express.json()] finds on the wire.  The parser is used with its
    defaults, so a body it accepts is a JSON object or array (strict
    mode); anything it cannot accept makes it call [next(err)]. *)
Inductive payload :=
  | NoPayload
  | Unparseable (e : error)
  | JsonObject (props : gmap string value)
  | JsonArray (items : list value).

(** The body a handler reads when the parser accepted the payload. *)
Definition parsed (p : payload) : option value :=
  match p with
  | JsonObject props => Some (VObj props)
  | JsonArray items => Some (VArr items)
  | NoPayload | Unparseable _ => None
  end.

Definition rejected (p : payload) : bool :=
  match p with
  | Unparseable _ => true
  | _ => false
  end.

(** A request: its method, the path of its URL, its header fields under
    their lower-case names ([req.headers]) and its payload. *)
Record request := Request {
  req_method : string;
  req_path : string;
  req_headers : gmap string string;
  req_payload : payload
}.

(** An answer.  [Json s v] is what [res.status(s).json(v)] sends: the
    status [s] and the JSON text of [v], given here as the value a client
    reads off it (to a HEAD the same answer goes out without the text).
    [NotModified] is a 304, which has no body.  The other three are the
    answers of the static middleware: a file (200), a range of a file
    (206), and the redirect (301) to [location] for a directory. *)
Inductive response :=
  | Json (status : Z) (content : value)
  | NotModified
  | File (bytes : list Byte.byte)
  | Partial (bytes : list Byte.byte)
  | Moved (location : string).

(** How a layer ends: it calls [next()], it throws or calls [next(err)],
    or it sends the response. *)
Inductive action :=
  | Next
  | Throw (e : error)
  | Send (r : response).

(** What running one layer does: it may replace [req.body], it may
    change the state that outlives the request (the variables of the
    module and [app.locals], by name), it may write lines to the console,
    and it ends in an [action]. *)
Record step := Step {
  body : value;
  store : gmap string value;
  written : list string;
  act : action
}.

(** A handler sees the request, the current [req.body] and the shared
    state. *)
Definition handler : Type := request -> value -> gmap string value -> step.

Inductive layer :=
  | Use (h : handler)
  | Route (verb pattern : string) (h : handler)
  | UseError (h : error -> handler).

(** A route registered for GET also answers HEAD. *)
Definition method_matches (verb m : string) : bool :=
  String.eqb m verb || (String.eqb m "HEAD" && String.eqb verb "GET").

(** Route paths are matched case-insensitively and with an optional
    trailing slash (the router's defaults). *)
Definition path_matches (pattern p : string) : bool :=
  String.eqb (lower p) pattern || String.eqb (lower p) (pattern +:+ "/").

Definition route_matches (verb pattern : string) (rq : request) : bool :=
  method_matches verb (req_method rq) && path_matches pattern (req_path rq).

(** How the walk ends: a layer answered, or the stack is exhausted and
    the request, with its pending error and its [req.body], is left to
    Express' final handler. *)
Inductive outcome :=
  | Answered (r : response)
  | Unanswered (pending : option error) (b : value).

(** The router walks the stack in registration order.  Without a pending
    error it runs plain middleware and the routes that match and skips
    error handlers; with a pending error it skips everything except
    error handlers.  The result is what was written to the console on
    the way, the shared state as the layers left it, and how the walk
    ended. *)
Fixpoint dispatch (stack : list layer) (pending : option error)
         (rq : request) (b : value) (s : gmap string value)
  : list string * gmap string value * outcome :=
  match stack with
  | [] => ([], s, Unanswered pending b)
  | l :: rest =>
      let run (h : handler) :=
        let r := h rq b s in
        match act r with
        | Next =>
            let '(out, s', o) := dispatch rest None rq (body r) (store r) in
            (written r ++ out, s', o)
        | Throw e =>
            let '(out, s', o) :=
              dispatch rest (Some e) rq (body r) (store r) in
            (written r ++ out, s', o)
        | Send a => (written r, store r, Answered a)
        end in
      match l, pending with
      | Use h, None => run h
      | Route verb pattern h, None =>
          if route_matches verb pattern rq then run h
          else dispatch rest pending rq b s
      | UseError h, Some e => run (h e)
      | _, _ => dispatch rest pending rq b s
      end
  end.

(** The requests of one process lifetime, in the order they are
    handled, each with the reading [t] of the outside world its handlers
    take: every request starts with a fresh [req.body]; the console and
    the shared state are handed from one request to the next. *)
Fixpoint process {T : Type} (stack : T -> list layer) (log : list string)
         (s : gmap string value) (arrivals : list (T * request))
  : list string * gmap string value * list outcome :=
  match arrivals with
  | [] => (log, s, [])
  | (t, rq) :: rest =>
      let '(lines, s', out) := dispatch (stack t) None rq VUndefined s in
      let '(log', s'', outs) := process stack (log ++ lines) s' rest in
      (log', s'', out :: outs)
  end.

(** [express.json()].  [unparsed] is what [req.body] holds when nothing
    was parsed: it is fixed by the installed Express release, which
    [package.json] pins ([{}] up to Express 4, [undefined] from
    Express 5). *)
Definition json (unparsed : value) : handler :=
  fun rq _ s =>
    match req_payload rq with
    | NoPayload => Step unparsed s [] Next
    | Unparseable e => Step unparsed s [] (Throw e)
    | JsonObject props => Step (VObj props) s [] Next
    | JsonArray items => Step (VArr items) s [] Next
    end.

(** What the static middleware does with a GET or a HEAD, which depends
    on the directory it serves and on the request headers: it passes the
    request on (nothing to serve under the path, a dot file, a path it
    refuses, a failed precondition), it fails with an error of status
    500 or more and calls [next(err)], or it answers: with the file (the
    index file for a directory path that ends in a slash), with a range
    of it, with a redirect for a directory path without the slash, or
    with 304 for a conditional request. *)
Inductive static_result :=
  | PassOn
  | FileError (e : error)
  | SendFile (bytes : list Byte.byte)
  | SendRange (bytes : list Byte.byte)
  | Redirect (location : string)
  | Unchanged.

(** [root] is the middleware's decision for a path and the headers of a
    request; it is asked for GET and HEAD only, every other method is
    passed on at once. *)
Definition served (root : string -> gmap string string -> static_result)
           (rq : request) : static_result :=
  if negb (String.eqb (req_method rq) "GET")
     && negb (String.eqb (req_method rq) "HEAD")
  then PassOn
  else root (req_path rq) (req_headers rq).

(** The answer the static middleware sends, if it sends one. *)
Definition static_response (a : static_result) : option response :=
  match a with
  | PassOn | FileError _ => None
  | SendFile bytes => Some (File bytes)
  | SendRange bytes => Some (Partial bytes)
  | Redirect location => Some (Moved location)
  | Unchanged => Some NotModified
  end.

(** [express.static(root)]. *)
Definition static (root : string -> gmap string string -> static_result)
  : handler :=
  fun rq b s =>
    match served root rq with
    | PassOn => Step b s [] Next
    | FileError e => Step b s [] (Throw e)
    | SendFile bytes => Step b s [] (Send (File bytes))
    | SendRange bytes => Step b s [] (Send (Partial bytes))
    | Redirect location => Step b s [] (Send (Moved location))
    | Unchanged => Step b s [] (Send NotModified)
    end.

(** A header field that is present and not empty. *)
Definition has_header (h : gmap string string) (k : string) : bool :=
  match h !! k with
  | Some v => negb (String.eqb v "")
  | None => false
  end.

(** A conditional request carries a validator. *)
Definition conditional (h : gmap string string) : bool :=
  has_header h "if-none-match" || has_header h "if-modified-since".

(** [req.fresh], which [res.send] consults before it writes the body:
    only an answer with a 2xx status (or 304) to a GET or a HEAD can be
    fresh, and only when the request is conditional.  Whether the
    validators then match the answer ([validates]: Express compares the
    request headers with the ETag it computes for the body) is left to
    the platform. *)
Definition fresh (validates : gmap string string -> value -> bool)
           (rq : request) (status : Z) (content : value) : bool :=
  (((200 <=? status) && (status <? 300)) || (status =? 304))
  && (String.eqb (req_method rq) "GET" || String.eqb (req_method rq) "HEAD")
  && conditional (req_headers rq)
  && validates (req_headers rq) content.

(** [res.status(status).json(v)]: the JSON text of [v] is sent with the
    status, unless the request is fresh, which turns the answer into a
    304 without a body. *)
Definition res_json (validates : gmap string string -> value -> bool)
           (rq : request) (status : Z) (v : value) : response :=
  if fresh validates rq status (jsonify v) then NotModified
  else Json status (jsonify v).

End Express.

(* ===================================================================== *)
(** ** The application, [src/app.js] *)
(* ===================================================================== *)

Module App.
Import Js Express.

(** What [app.listen(port)] comes to: the server is bound and the
    callback runs; the call throws at once (a port outside 0..65535);
    or the bind fails later (the address is in use, the port is
    privileged), which ends the process through the unhandled ['error']
    event of the server. *)
Inductive listen_result :=
  | Bound
  | Throws (e : error)
  | Fails (e : error).

(** What the process is started with: the [PORT] environment variable,
    the decisions of the static middleware over the directory
    [public/], the Express default for an unparsed body, the call-stack
    text the engine appends to an error it raises, Express' comparison
    of validators, and what binding a port comes to. *)
Record platform := Platform {
  PORT : option string;
  public : string -> gmap string string -> static_result;
  unparsed_body : value;
  frames : string;
  validates : gmap string string -> value -> bool;
  listen : string + Z -> listen_result
}.

(** What the outside world reads while a request is handled: the wall
    clock in milliseconds since the epoch ([Date]) and the Number that
    [process.uptime()] returns, a finite binary64 counting seconds, kept
    as the rational it denotes. *)
Record clock := Clock {
  wall_ms : Z;
  uptime_s : Qc
}.

(** [process.env.PORT || 3000]: the variable's text when it is set and
    not empty, otherwise the number 3000. *)
Definition port (P : platform) : string + Z :=
  match PORT P with
  | Some s => if truthy (VStr s) then inl s else inr 3000
  | None => inr 3000
  end.

(** [app.get('/health', ...)] *)
Definition get_health (P : platform) (k : clock) : handler :=
  fun rq b s =>
    Step b s [] (Send (res_json (validates P) rq 200 (VObj {[
      "status" := VStr "healthy";
      "timestamp" := VStr (IsoDate.toISOString (wall_ms k));
      "uptime" := VNum (Exact (uptime_s k)) ]}))).

(** [app.get('/api/users', ...)]; [res.json] without [res.status] answers
    200. *)
Definition get_users (P : platform) : handler :=
  fun rq b s =>
    Step b s [] (Send (res_json (validates P) rq 200 (VArr [
      VObj {[ "id" := VInt 1; "name" := VStr "John Doe";
              "email" := VStr "john@example.com" ]};
      VObj {[ "id" := VInt 2; "name" := VStr "Jane Smith";
              "email" := VStr "jane@example.com" ]} ]))).

(** [app.post('/api/users', ...)] *)
Definition post_users (P : platform) (k : clock) : handler :=
  fun rq b s =>
    match destructure (frames P) "name" "req.body" b with
    | inl e => Step b s [] (Throw e)
    | inr name =>
        match destructure (frames P) "email" "req.body" b with
        | inl e => Step b s [] (Throw e)
        | inr email =>
            if negb (truthy name) || negb (truthy email) then
              Step b s [] (Send (res_json (validates P) rq 400 (VObj {[
                "error" := VStr "Name and email are required" ]})))
            else
              let newUser := VObj {[
                "id" := VInt (wall_ms k);
                "name" := name;
                "email" := email ]} in
              Step b s [] (Send (res_json (validates P) rq 201 newUser))
        end
    end.

(** The error handling middleware: print the stack, answer 500. *)
Definition error_handler (P : platform) (err : error) : handler :=
  fun rq b s =>
    Step b s [err_stack err]
         (Send (res_json (validates P) rq 500
                  (VObj {[ "error" := VStr "Something went wrong!" ]}))).

(** The 404 handler. *)
Definition not_found (P : platform) : handler :=
  fun rq b s =>
    Step b s []
         (Send (res_json (validates P) rq 404
                  (VObj {[ "error" := VStr "Route not found" ]}))).

(** The layers in the order the file registers them. *)
Definition app (P : platform) (k : clock) : list layer :=
  [ Use (json (unparsed_body P));
    Use (static (public P));
    Route "GET" "/health" (get_health P k);
    Route "GET" "/api/users" (get_users P);
    Route "POST" "/api/users" (post_users P k);
    UseError (error_handler P);
    Use (not_found P) ].

(** The layers registered ahead of the error handling middleware. *)
Definition guarded (P : platform) (k : clock) : list layer :=
  take 5 (app P k).

(** One request, handled while the outside world reads [k] and the
    shared state is [s]: the lines written to the console, the shared
    state afterwards, and the answer. *)
Definition handle (P : platform) (k : clock) (rq : request)
           (s : gmap string value)
  : list string * gmap string value * outcome :=
  dispatch (app P k) None rq VUndefined s.

Definition reply (P : platform) (k : clock) (rq : request)
           (s : gmap string value) : outcome :=
  snd (handle P k rq s).

(** The requests of one process lifetime. *)
Definition serve (P : platform) (log : list string) (s : gmap string value)
           (arrivals : list (clock * request))
  : list string * gmap string value * list outcome :=
  process (app P) log s arrivals.

(** The request is a [verb] for the path of the route and gets as far as
    the route: the body parser did not reject it and the static
    middleware passes it on. *)
Definition reaches (P : platform) (verb pattern : string) (rq : request)
  : Prop :=
  req_method rq = verb
  /\ path_matches pattern (req_path rq) = true
  /\ rejected (req_payload rq) = false
  /\ served (public P) rq = PassOn.

(** The request carries no validator. *)
Definition unconditional (rq : request) : Prop :=
  conditional (req_headers rq) = false.

(** Readings of the running process: a time a [Date] can hold, and an
    uptime that is not negative. *)
Definition running (k : clock) : Prop :=
  IsoDate.valid_time (wall_ms k) /\ (0 <= uptime_s k)%Qc.

(** Loading the file: what listens, what the startup wrote to the
    console, the error that ended the startup if one did, and
    [module.exports] as the last line left it. *)
Record loaded := Loaded {
  listening : option (string + Z);
  startup_log : list string;
  crashed : option error;
  exports : option (platform -> clock -> list layer)
}.

Definition port_text (p : string + Z) : string :=
  match p with
  | inl s => s
  | inr n => pretty n
  end.

(** [require.main === module] decides whether [app.listen] is called;
    its callback writes the startup line once the server is bound.  When
    [app.listen] throws, the last line, [module.exports = app], is not
    reached. *)
Definition load (P : platform) (is_main : bool) : loaded :=
  if is_main then
    match listen P (port P) with
    | Bound =>
        Loaded (Some (port P))
               ["Server running on port " +:+ port_text (port P)]
               None (Some app)
    | Throws e => Loaded None [] (Some e) None
    | Fails e => Loaded None [] (Some e) (Some app)
    end
  else Loaded None [] None (Some app).

(** What a client reads off a health answer: the uptime, and the
    timestamp as a time value. *)
Definition health_reading (o : outcome) : option (Qc * Z) :=
  match o with
  | Answered (Json 200 (VObj props)) =>
      match props !! "uptime", props !! "timestamp" with
      | Some (VNum (Exact u)), Some (VStr s) =>
          t ← IsoDate.parse s; Some (u, t)
      | _, _ => None
      end
  | _ => None
  end.

End App.

(* ===================================================================== *)
(** ** Sample inputs *)
(* ===================================================================== *)

Module Sample.
Import Js Express App.

(** A container built from the [Dockerfile]: no [PORT], nothing for the
    static middleware to serve, Express 4, ports that can be bound. *)
Definition container : platform :=
  Platform None (fun _ _ => PassOn) (VObj ∅) " at src/app.js"
           (fun _ _ => false) (fun _ => Bound).

(** 2023-11-14T22:13:20.000Z, twelve seconds after the start. *)
Definition evening : clock := Clock 1700000000000 (Qc_of_Z 12).

Definition alice_fields : gmap string value :=
  {[ "name" := VStr "Alice"; "email" := VStr "a@x.com" ]}.

Definition alice : request :=
  Request "POST" "/api/users" ∅ (JsonObject alice_fields).

Definition alice_admin_fields : gmap string value :=
  {[ "name" := VStr "Alice"; "email" := VStr "a@x.com";
     "role" := VStr "admin"; "id" := VInt 7 ]}.

Definition alice_admin : request :=
  Request "POST" "/api/users" ∅ (JsonObject alice_admin_fields).

Definition only_name_fields : gmap string value :=
  {[ "name" := VStr "Alice" ]}.

Definition only_name : request :=
  Request "POST" "/api/users" ∅ (JsonObject only_name_fields).



Definition syntax_error : error :=
  Error "SyntaxError" "Unexpected end of JSON input"
        "SyntaxError: Unexpected end of JSON input at JSON.parse".

Definition get_health_plain : request :=
  Request "GET" "/health" ∅ NoPayload.

Definition get_health_broken_body : request :=
  Request "GET" "/health" ∅ (Unparseable syntax_error).

Definition get_users_plain : request :=
  Request "GET" "/api/users" ∅ NoPayload.

Definition get_users_broken_body : request :=
  Request "GET" "/api/users" ∅ (Unparseable syntax_error).



Definition two_gets : list (clock * request) :=
  [ (evening, get_health_plain); (evening, get_users_plain) ].

(** Two health checks one second apart. *)
Definition later : clock := Clock 1700000001000 (Qc_of_Z 13).




(** A file [public/health] in the static directory. *)
Definition shadowed : platform :=
  Platform None
           (fun p _ => if String.eqb p "/health"
                       then SendFile [Byte.x6f; Byte.x6b] else PassOn)
           (VObj ∅) " at src/app.js" (fun _ _ => false) (fun _ => Bound).

(** Directories [public/health/] and [public/docs/] in the static
    directory. *)
Definition with_directory : platform :=
  Platform None
           (fun p _ => if String.eqb p "/health" then Redirect "/health/"
                       else if String.eqb p "/docs" then Redirect "/docs/"
                       else PassOn)
           (VObj ∅) " at src/app.js" (fun _ _ => false) (fun _ => Bound).

(** A file [public/logo.png] that cannot be read. *)
Definition access_error : error :=
  Error "Error" "EACCES: permission denied, stat 'public/logo.png'"
        "Error: EACCES: permission denied, stat 'public/logo.png'".

Definition unreadable : platform :=
  Platform None
           (fun p _ => if String.eqb p "/logo.png"
                       then FileError access_error else PassOn)
           (VObj ∅) " at src/app.js" (fun _ _ => false) (fun _ => Bound).

Definition get_logo : request := Request "GET" "/logo.png" ∅ NoPayload.

(** A platform on which the validator [*] matches every answer, and a
    health check that carries it. *)
Definition caching : platform :=
  Platform None (fun _ _ => PassOn) (VObj ∅) " at src/app.js"
           (fun h _ => bool_decide (h !! "if-none-match" = Some "*"))
           (fun _ => Bound).

Definition get_health_if_none_match : request :=
  Request "GET" "/health" {[ "if-none-match" := "*" ]} NoPayload.

(** [PORT=99999]: [app.listen] throws. *)
Definition bad_port_error : error :=
  Error "RangeError"
        "options.port should be >= 0 and < 65536. Received type string ('99999')."
        "RangeError [ERR_SOCKET_BAD_PORT]: options.port should be >= 0 and < 65536. Received type string ('99999').".

Definition bad_port : platform :=
  Platform (Some "99999") (fun _ _ => PassOn) (VObj ∅) " at src/app.js"
           (fun _ _ => false)
           (fun p => match p with
                     | inl "99999" => Throws bad_port_error
                     | _ => Bound
                     end).

(** [PORT=8080] on a platform where every port can be bound. *)
Definition on_8080 : platform :=
  Platform (Some "8080") (fun _ _ => PassOn) (VObj ∅) " at src/app.js"
           (fun _ _ => false) (fun _ => Bound).

(** A handler that does use the shared state: it answers whether it was
    called before. *)
Definition remember : handler :=
  fun rq b s =>
    Step b (<[ "seen" := VBool true ]> s) []
         (Send (Json 200 (default (VBool false) (s !! "seen")))).

Definition remembering (k : clock) : list layer := [ Use remember ].

End Sample.

(* ===================================================================== *)
(** ** The container health probe, [Dockerfile] *)
(* ===================================================================== *)

Module Probe.
Import Js Express App.

(** The status line of an answer. *)
Definition status_code (r : response) : Z :=
  match r with
  | Json s _ => s
  | NotModified => 304
  | File _ => 200
  | Partial _ => 206
  | Moved _ => 301
  end.

(** The answer is a 500. *)
Definition server_error (o : outcome) : bool :=
  match o with
  | Answered r => status_code r =? 500
  | Unanswered _ _ => false
  end.

(** The request of the [HEALTHCHECK]:
    [http.get('http://localhost:3000/health', ...)], which sends no
    body and no validator. *)
Definition probe : request :=
  Request "GET" "/health" {[ "host" := "localhost:3000" ]} NoPayload.

(** Its callback, [process.exit(res.statusCode === 200 ? 0 : 1)].  A
    request that no layer answers is left to Express' final handler,
    which answers with an error status. *)
Definition exit_code (o : outcome) : Z :=
  match o with
  | Answered r => if status_code r =? 200 then 0 else 1
  | Unanswered _ _ => 1
  end.

(** The probe, once it is connected to the running service. *)
Definition healthcheck (P : platform) (k : clock) (s : gmap string value)
  : Z :=
  exit_code (reply P k probe s).

End Probe.

(* ===================================================================== *)
(** ** More sample inputs *)
(* ===================================================================== *)

Module Sample2.
Import Js Express App.

Definition delete_users : request :=
  Request "DELETE" "/api/users" ∅ NoPayload.

Definition bob_fields : gmap string value :=
  {[ "name" := VStr "Bob"; "email" := VStr "b@y.org" ]}.

Definition bob : request :=
  Request "POST" "/api/users" ∅ (JsonObject bob_fields).

Definition post_no_body : request :=
  Request "POST" "/api/users" ∅ NoPayload.

(** The container with an Express release that leaves [req.body]
    undefined when nothing was parsed. *)
Definition container5 : platform :=
  Platform None (fun _ _ => PassOn) VUndefined " at src/app.js"
           (fun _ _ => false) (fun _ => Bound).

Definition range_error : error :=
  Error "PayloadTooLargeError" "request entity too large"
        "PayloadTooLargeError: request entity too large at readStream".

Definition put_huge_body : request :=
  Request "PUT" "/health" ∅ (Unparseable range_error).

End Sample2.

(* ===================================================================== *)
(** ** The date format on known instants *)
(* ===================================================================== *)

Example toISOString_epoch :
  IsoDate.toISOString 0 = "1970-01-01T00:00:00.000Z".
Proof. reflexivity. Qed.

Example toISOString_2023 :
  IsoDate.toISOString 1700000000000 = "2023-11-14T22:13:20.000Z".
Proof. reflexivity. Qed.

Example toISOString_before_epoch :
  IsoDate.toISOString (-1) = "1969-12-31T23:59:59.999Z".
Proof. reflexivity. Qed.

Example toISOString_leap_day :
  IsoDate.toISOString 951782400000 = "2000-02-29T00:00:00.000Z".
Proof. reflexivity. Qed.

Example toISOString_year_10000 :
  IsoDate.toISOString 253402300800000 = "+010000-01-01T00:00:00.000Z".
Proof. reflexivity. Qed.

Example toISOString_min :
  IsoDate.toISOString (-8640000000000000) = "-271821-04-20T00:00:00.000Z".
Proof. reflexivity. Qed.

Example parse_2023 :
  IsoDate.parse "2023-11-14T22:13:20.000Z" = Some 1700000000000.
Proof. reflexivity. Qed.

Example parse_rejects_month_13 :
  IsoDate.parse "2023-13-14T22:13:20.000Z" = None.
Proof. reflexivity. Qed.

(* ===================================================================== *)
(** ** Timestamps read back as the time they were made from *)
(* ===================================================================== *)

Section IsoDateFacts.
Import IsoDate.

Lemma digit_code (d : Z) :
  0 <= d < 10 -> Z.of_N (N_of_ascii (digit d)) = 48 + d.
Proof.
  intros Hd. unfold digit. rewrite N_ascii_embedding by lia. lia.
Qed.

Lemma digit_val_digit (d : Z) : 0 <= d < 10 -> digit_val (digit d) = Some d.
Proof.
  intros Hd. unfold digit_val. rewrite digit_code by done.
  replace (48 <=? 48 + d) with true by lia.
  replace (48 + d <=? 57) with true by lia.
  simpl. f_equal. lia.
Qed.

Lemma digit_not (d : Z) (c : ascii) :
  0 <= d < 10 -> ~ (48 <= Z.of_N (N_of_ascii c) <= 57) ->
  Ascii.eqb (digit d) c = false.
Proof.
  intros Hd Hc. apply Ascii.eqb_neq. intros <-.
  rewrite digit_code in Hc by done. lia.
Qed.

Lemma append_cons (c : ascii) (s r : string) :
  String c s +:+ r = String c (s +:+ r).
Proof. reflexivity. Qed.

(** Reading [n] digits reads back what [pad n] wrote. *)
Lemma read_digits_pad (n : nat) : forall (acc v : Z) (rest : string),
  0 <= v ->
  read_digits n acc (pad n v +:+ rest)
  = Some (acc * 10 ^ Z.of_nat n + v mod 10 ^ Z.of_nat n, rest).
Proof.
  induction n as [|n IH]; intros acc v rest Hv.
  - simpl. rewrite Z.mod_1_r. do 2 f_equal. lia.
  - cbn [pad]. rewrite append_cons. cbn [read_digits].
    assert (Hp : 0 < 10 ^ Z.of_nat n) by (apply Z.pow_pos_nonneg; lia).
    rewrite digit_val_digit by (apply Z.mod_pos_bound; lia).
    cbn [mbind option_bind]. rewrite IH by done. do 2 f_equal.
    rewrite Nat2Z.inj_succ, Z.pow_succ_r by lia.
    rewrite (Z.mul_comm 10), Z.rem_mul_r by lia. lia.
Qed.

Lemma read_digits_pad_small (n : nat) (v : Z) (rest : string) :
  0 <= v < 10 ^ Z.of_nat n ->
  read_digits n 0 (pad n v +:+ rest) = Some (v, rest).
Proof.
  intros Hv. rewrite read_digits_pad by lia.
  rewrite Z.mod_small by done. reflexivity.
Qed.

Lemma read_year_string (y : Z) (rest : string) :
  -999999 <= y <= 999999 ->
  read_year (year_string y +:+ rest) = Some (y, rest).
Proof.
  intros Hy. unfold year_string.
  destruct ((0 <=? y) && (y <=? 9999)) eqn:Hsmall.
  - apply andb_prop in Hsmall as [H0 H1].
    change (pad 4 y) with
      (String (digit (y / 10 ^ Z.of_nat 3 mod 10)) (pad 3 y)) at 1.
    rewrite append_cons. unfold read_year.
    rewrite !digit_not; [| apply Z.mod_pos_bound; lia | simpl; lia
                         | apply Z.mod_pos_bound; lia | simpl; lia ].
    change (String (digit (y / 10 ^ Z.of_nat 3 mod 10)) (pad 3 y +:+ rest))
      with (pad 4 y +:+ rest).
    apply read_digits_pad_small. simpl. lia.
  - destruct (y <? 0) eqn:Hneg.
    + rewrite append_cons. cbn [read_year]. simpl Ascii.eqb.
      rewrite read_digits_pad_small by (simpl; lia).
      cbn [mbind option_bind].
      replace (- y =? 0) with false by lia.
      do 2 f_equal. lia.
    + rewrite append_cons. cbn [read_year]. simpl Ascii.eqb.
      apply read_digits_pad_small. simpl. lia.
Qed.

Lemma leap_spec (y : Z) :
  in_leap_year y = true <-> (y mod 4 = 0 /\ y mod 100 <> 0) \/ y mod 400 = 0.
Proof. unfold in_leap_year. lia. Qed.

(** From March 1 to the next January 1 there are 306 days. *)
Lemma january_first (y : Z) : day_from_year (y + 1) = march_first y + 306.
Proof.
  unfold day_from_year, march_first.
  Z.to_euclidean_division_equations; lia.
Qed.

Lemma march_first_leap (y : Z) :
  day_from_year y + 59 + (if in_leap_year y then 1 else 0) = march_first y.
Proof.
  unfold day_from_year, march_first.
  destruct (in_leap_year y) eqn:Hleap;
    [ apply leap_spec in Hleap
    | apply not_true_iff_false in Hleap; rewrite leap_spec in Hleap ];
    Z.to_euclidean_division_equations; lia.
Qed.

(** Years are counted in eras of 400 years, 146097 days each. *)
Lemma march_first_era (yoe era : Z) :
  0 <= yoe <= 399 ->
  march_first (yoe + era * 400)
  = 146097 * era + (365 * yoe + yoe / 4 - yoe / 100) - 719468.
Proof.
  intros H. unfold march_first.
  Z.to_euclidean_division_equations; lia.
Qed.

(** A year that starts in March has a 366th day only when the civil year
    that follows is a leap year. *)
Lemma leap_day_in_leap_year (yoe era doy : Z) :
  0 <= yoe <= 399 ->
  (doy = 365 ->
   (yoe + 1) mod 4 = 0 /\ ((yoe + 1) mod 100 <> 0 \/ yoe = 399)) ->
  doy <= 365 ->
  doy <= 364 + (if in_leap_year (yoe + era * 400 + 1) then 1 else 0).
Proof.
  intros Hyoe Hl Hdoy.
  destruct (in_leap_year _) eqn:Hleap; [lia|].
  apply not_true_iff_false in Hleap. rewrite leap_spec in Hleap.
  Z.to_euclidean_division_equations; lia.
Qed.

(** [civil_from_days] yields a date of the calendar, and [make_day] maps
    it back to the day number. *)
Lemma civil_fields (dn y m d : Z) :
  civil_from_days dn = (y, m, d) ->
  make_day y m d = dn /\ 1 <= m <= 12
  /\ 1 <= d <= days_in_month (in_leap_year y) m.
Proof.
  unfold civil_from_days.
  set (era := (dn + 719468) / 146097).
  set (doe := (dn + 719468) mod 146097).
  set (yoe := (doe - doe / 1460 + doe / 36524 - doe / 146096) / 365).
  set (doy := doe - (365 * yoe + yoe / 4 - yoe / 100)).
  set (mp := (5 * doy + 2) / 153).
  set (mm := if mp <? 10 then mp + 3 else mp - 9).
  intros Hc.
  assert (Hdn : dn + 719468 = 146097 * era + doe)
    by (apply Z.div_mod; lia).
  assert (Hdoe : 0 <= doe < 146097) by (apply Z.mod_pos_bound; lia).
  assert (Hyoe : 0 <= yoe <= 399 /\ 0 <= doy <= 365)
    by (subst yoe doy; Z.to_euclidean_division_equations; lia).
  assert (Hleapday : doy = 365 ->
            (yoe + 1) mod 4 = 0 /\ ((yoe + 1) mod 100 <> 0 \/ yoe = 399))
    by (subst yoe doy; Z.to_euclidean_division_equations; lia).
  assert (Hmar : march_first (yoe + era * 400) + doy = dn)
    by (rewrite march_first_era by lia; subst doy; lia).
  pose proof (march_first_leap (yoe + era * 400)) as Hml.
  pose proof (january_first (yoe + era * 400)) as Hjan.
  pose proof (leap_day_in_leap_year yoe era doy ltac:(lia) Hleapday ltac:(lia))
    as Hfeb.
  assert (Hmp : 0 <= mp <= 11 /\ 153 * mp <= 5 * doy + 2 < 153 * mp + 153)
    by (subst mp; Z.to_euclidean_division_equations; lia).
  clearbody era doe yoe doy mp.
  injection Hc as Hy Hm Hd. subst m.
  assert (Hcase : mp = 0 \/ mp = 1 \/ mp = 2 \/ mp = 3 \/ mp = 4 \/ mp = 5
                  \/ mp = 6 \/ mp = 7 \/ mp = 8 \/ mp = 9 \/ mp = 10 \/ mp = 11)
    by lia.
  unfold make_day.
  destruct Hcase as [-> | [-> | [-> | [-> | [-> | [-> | [-> | [-> | [-> | [->
                    | [-> | ->]]]]]]]]]]];
    vm_compute in mm; subst mm;
    destruct (_ <=? 2) eqn:Hadj in Hy; try lia;
    subst y; rewrite ?Z.add_0_r;
    cbn [days_before_month days_in_month];
    repeat case_match;
    (Z.to_euclidean_division_equations; lia).
Qed.

Lemma civil_year_bound (d : Z) :
  -100000001 <= d <= 100000001 ->
  -999999 <= (civil_from_days d).1.1 <= 999999.
Proof.
  intros Hd. unfold civil_from_days. cbn [fst].
  set (doe := (d + 719468) mod 146097).
  assert (0 <= doe < 146097) by (apply Z.mod_pos_bound; lia).
  assert (0 <= (doe - doe / 1460 + doe / 36524 - doe / 146096) / 365 < 400)
    by (Z.to_euclidean_division_equations; lia).
  assert (-700 <= (d + 719468) / 146097 <= 700)
    by (Z.to_euclidean_division_equations; lia).
  case_match; lia.
Qed.

Lemma append_nil (r : string) : "" +:+ r = r.
Proof. reflexivity. Qed.

Lemma expect_cons (c : ascii) (r : string) : expect c (String c r) = Some r.
Proof. unfold expect. rewrite Ascii.eqb_refl. reflexivity. Qed.

Ltac read_step :=
  first [ rewrite read_digits_pad_small by (simpl; lia)
        | rewrite append_cons, expect_cons, append_nil ];
  cbn [mbind option_bind].

Lemma read_fields_format (f : fields) :
  -999999 <= year f <= 999999 ->
  0 <= month f < 100 -> 0 <= day f < 100 -> 0 <= hour f < 100 ->
  0 <= minute f < 100 -> 0 <= second f < 100 -> 0 <= milli f < 1000 ->
  read_fields (format f) = Some f.
Proof.
  intros Hy Hmo Hd Hh Hmi Hs Hms. unfold read_fields, format.
  rewrite read_year_string by done. cbn [mbind option_bind].
  do 12 read_step.
  rewrite expect_cons. cbn [mbind option_bind].
  destruct f; reflexivity.
Qed.

Lemma time_within_day (r : Z) :
  0 <= r < msPerDay ->
  0 <= r / 3600000 <= 23 /\ 0 <= r / 60000 mod 60 <= 59
  /\ 0 <= r / 1000 mod 60 <= 59 /\ 0 <= r mod 1000 <= 999
  /\ r / 3600000 * 3600000 + r / 60000 mod 60 * 60000
      + r / 1000 mod 60 * 1000 + r mod 1000 = r.
Proof.
  unfold msPerDay. intros Hr. Z.to_euclidean_division_equations. lia.
Qed.

Lemma parse_format (f : fields) :
  -999999 <= year f <= 999999 ->
  0 <= hour f -> 0 <= minute f -> 0 <= second f -> 0 <= milli f < 1000 ->
  fields_ok f = true ->
  parse (format f) = Some (time_of_fields f).
Proof.
  intros Hy Hh Hmi Hs Hms Hok. unfold parse.
  pose proof Hok as Hok'. unfold fields_ok in Hok'.
  repeat (apply andb_prop in Hok' as [Hok' ?]).
  assert (days_in_month (in_leap_year (year f)) (month f) <= 31)
    by (unfold days_in_month; repeat case_match; lia).
  rewrite read_fields_format by lia.
  cbn [mbind option_bind]. rewrite Hok. reflexivity.
Qed.

Lemma day_range (t : Z) :
  valid_time t -> -100000001 <= t / msPerDay <= 100000001.
Proof.
  unfold valid_time, msPerDay. intros Ht.
  Z.to_euclidean_division_equations; lia.
Qed.

Lemma fields_of_day_ok (dn r y m d : Z) :
  -100000001 <= dn <= 100000001 -> 0 <= r < msPerDay ->
  civil_from_days dn = (y, m, d) ->
  let f := Fields y m d (r / 3600000) (r / 60000 mod 60) (r / 1000 mod 60)
                  (r mod 1000) in
  -999999 <= year f <= 999999 /\ 0 <= hour f /\ 0 <= minute f
  /\ 0 <= second f /\ 0 <= milli f < 1000
  /\ fields_ok f = true /\ time_of_fields f = dn * msPerDay + r.
Proof.
  intros Hday Hr Hc.
  pose proof (civil_year_bound _ Hday) as Hyear. rewrite Hc in Hyear.
  cbn [fst] in Hyear.
  destruct (civil_fields _ _ _ _ Hc) as (Hmk & Hm & Hd).
  destruct (time_within_day _ Hr) as (Hh & Hmi & Hs & Hms & Hsum).
  unfold fields_ok, time_of_fields.
  cbn [year month day hour minute second milli].
  rewrite Hmk. repeat split; lia.
Qed.

Lemma fields_of_time_ok (t : Z) :
  valid_time t ->
  let f := fields_of_time t in
  -999999 <= year f <= 999999 /\ 0 <= hour f /\ 0 <= minute f
  /\ 0 <= second f /\ 0 <= milli f < 1000
  /\ fields_ok f = true /\ time_of_fields f = t.
Proof.
  intros Ht.
  assert (Hpos : 0 < msPerDay) by (unfold msPerDay; lia).
  unfold fields_of_time.
  destruct (civil_from_days (t / msPerDay)) as [[y m] d] eqn:Hc.
  pose proof (fields_of_day_ok (t / msPerDay) (t mod msPerDay) y m d
                (day_range t Ht) (Z.mod_pos_bound t msPerDay Hpos) Hc) as H.
  replace (t / msPerDay * msPerDay + t mod msPerDay) with t in H; [exact H|].
  rewrite (Z.div_mod t msPerDay) at 1 by lia. lia.
Qed.

(** Reading back what [toISOString] wrote gives the time value it was
    written from. *)
Lemma parse_toISOString (t : Z) :
  valid_time t -> parse (toISOString t) = Some t.
Proof.
  intros Ht. destruct (fields_of_time_ok t Ht) as (? & ? & ? & ? & ? & ? & Ht').
  unfold toISOString. rewrite parse_format by done. by rewrite Ht'.
Qed.

End IsoDateFacts.

(* ===================================================================== *)
(** ** What [JSON.stringify] preserves *)
(* ===================================================================== *)

Section JsonFacts.
Import Js.






End JsonFacts.

(* ===================================================================== *)
(** ** Dispatch *)
(* ===================================================================== *)

Section DispatchFacts.
Import Js Express.


(** With a pending error the plain layers are skipped. *)
Lemma dispatch_error_handler (h : error -> handler) (post : list layer)
      (rq : request) (e : error) (b : value) (s : gmap string value)
      (r : response) :
  act (h e rq b s) = Send r ->
  dispatch (UseError h :: post) (Some e) rq b s
  = (written (h e rq b s), store (h e rq b s), Answered r).
Proof. intros Hact. cbn [dispatch]. rewrite Hact. reflexivity. Qed.

(** A plain middleware that writes nothing and calls [next()]. *)
Lemma dispatch_use_next (h : handler) (rest : list layer) (rq : request)
      (b : value) (s : gmap string value) :
  act (h rq b s) = Next -> written (h rq b s) = [] ->
  dispatch (Use h :: rest) None rq b s
  = dispatch rest None rq (body (h rq b s)) (store (h rq b s)).
Proof.
  intros Hact Hout. cbn [dispatch]. rewrite Hact, Hout.
  destruct (dispatch rest None rq (body (h rq b s)) (store (h rq b s)))
    as [[? ?] ?].
  reflexivity.
Qed.

Lemma method_matches_post (m : string) :
  method_matches "POST" m = true -> m = "POST".
Proof.
  unfold method_matches. rewrite orb_true_iff, andb_true_iff.
  intros [H|[_ H]]; [by apply String.eqb_eq in H | discriminate].
Qed.

Lemma method_matches_get (m : string) :
  method_matches "GET" m = true -> m = "GET" \/ m = "HEAD".
Proof.
  unfold method_matches. rewrite orb_true_iff, andb_true_iff.
  intros [H|[H _]]; apply String.eqb_eq in H; auto.
Qed.

Lemma path_matches_lower (pattern p : string) :
  path_matches pattern p = true ->
  lower p = pattern \/ lower p = pattern +:+ "/".
Proof.
  unfold path_matches. rewrite orb_true_iff.
  intros [H|H]; apply String.eqb_eq in H; auto.
Qed.

(** The static middleware leaves every method but GET and HEAD alone. *)
Lemma served_post (root : string -> gmap string string -> static_result)
      (rq : request) :
  req_method rq = "POST" -> served root rq = PassOn.
Proof. intros Hm. unfold served. rewrite Hm. reflexivity. Qed.

(** For a GET or a HEAD the static middleware decides on the path and
    the headers. *)
Lemma served_get (root : string -> gmap string string -> static_result)
      (rq : request) :
  req_method rq = "GET" \/ req_method rq = "HEAD" ->
  served root rq = root (req_path rq) (req_headers rq).
Proof. intros Hm. unfold served. by destruct Hm as [-> | ->]. Qed.

(** What the static middleware answers with, it answers to a GET or a
    HEAD. *)
Lemma served_answer (root : string -> gmap string string -> static_result)
      (rq : request) :
  served root rq <> PassOn ->
  (req_method rq = "GET" \/ req_method rq = "HEAD")
  /\ served root rq = root (req_path rq) (req_headers rq).
Proof.
  unfold served.
  destruct (String.eqb_spec (req_method rq) "GET") as [Hget|Hget];
    destruct (String.eqb_spec (req_method rq) "HEAD") as [Hhead|Hhead];
    cbn [negb andb]; intros H; auto.
  contradiction.
Qed.

(** An answer with a status outside 2xx is never turned into a 304, and
    neither is the answer to a POST. *)
Lemma fresh_post (validates : gmap string string -> value -> bool)
      (rq : request) (status : Z) (content : value) :
  req_method rq = "POST" -> fresh validates rq status content = false.
Proof.
  intros Hm. unfold fresh. rewrite Hm. cbn [String.eqb Ascii.eqb].
  by rewrite andb_false_r.
Qed.

Lemma res_json_post (validates : gmap string string -> value -> bool)
      (rq : request) (status : Z) (v : value) :
  req_method rq = "POST" ->
  res_json validates rq status v = Json status (jsonify v).
Proof. intros Hm. unfold res_json. by rewrite fresh_post. Qed.

(** A request without a validator is never fresh. *)
Lemma fresh_unconditional (validates : gmap string string -> value -> bool)
      (rq : request) (status : Z) (content : value) :
  conditional (req_headers rq) = false ->
  fresh validates rq status content = false.
Proof.
  intros Hc. unfold fresh. rewrite Hc. by rewrite andb_false_r.
Qed.

(** The object a successful POST answers with, as its JSON text reads. *)
Lemma jsonify_new_user (id : Z) (name email : value) :
  truthy name = true -> truthy email = true ->
  jsonify (VObj {[ "id" := VInt id; "name" := name; "email" := email ]})
  = VObj {[ "id" := VInt id; "name" := jsonify name;
            "email" := jsonify email ]}.
Proof.
  intros Hname Hemail. cbn [jsonify]. f_equal.
  rewrite (omap_insert_Some _ _ _ _ (VInt id)) by reflexivity.
  rewrite (omap_insert_Some _ _ _ _ (jsonify name))
    by (by destruct name).
  rewrite (omap_singleton_Some _ _ _ (jsonify email))
    by (by destruct email).
  reflexivity.
Qed.

End DispatchFacts.

(* ===================================================================== *)
(** ** The routes *)
(* ===================================================================== *)

Section AppFacts.
Import Js Express App.

Lemma route_get_not_post (pattern : string) (rq : request) :
  req_method rq = "POST" -> route_matches "GET" pattern rq = false.
Proof. intros Hm. unfold route_matches. rewrite Hm. reflexivity. Qed.

(** The three error answers are never turned into a 304. *)
Lemma res_json_error (validates : gmap string string -> value -> bool)
      (rq : request) (status : Z) (msg : string) :
  ((200 <=? status) && (status <? 300)) || (status =? 304) = false ->
  res_json validates rq status (VObj {[ "error" := VStr msg ]})
  = Json status (VObj {[ "error" := VStr msg ]}).
Proof. intros Hs. unfold res_json, fresh. rewrite Hs. reflexivity. Qed.

Lemma jsonify_health (ts : string) (u : Qc) :
  jsonify (VObj {[ "status" := VStr "healthy"; "timestamp" := VStr ts;
                   "uptime" := VNum (Exact u) ]})
  = VObj {[ "status" := VStr "healthy"; "timestamp" := VStr ts;
            "uptime" := VNum (Exact u) ]}.
Proof. reflexivity. Qed.

Lemma jsonify_users :
  jsonify (VArr [
    VObj {[ "id" := VInt 1; "name" := VStr "John Doe";
            "email" := VStr "john@example.com" ]};
    VObj {[ "id" := VInt 2; "name" := VStr "Jane Smith";
            "email" := VStr "jane@example.com" ]} ])
  = VArr [
    VObj {[ "id" := VInt 1; "name" := VStr "John Doe";
            "email" := VStr "john@example.com" ]};
    VObj {[ "id" := VInt 2; "name" := VStr "Jane Smith";
            "email" := VStr "jane@example.com" ]} ].
Proof. reflexivity. Qed.

(** The body parser leaves the shared state alone. *)
Lemma json_store (unparsed : value) (rq : request) (b : value)
      (s : gmap string value) :
  store (json unparsed rq b s) = s.
Proof. unfold json. by destruct (req_payload rq). Qed.

Lemma json_body (unparsed : value) (rq : request) (b : value)
      (s : gmap string value) :
  body (json unparsed rq b s) = default unparsed (parsed (req_payload rq)).
Proof. unfold json. by destruct (req_payload rq). Qed.

(** A body the parser cannot accept is answered by the error handling
    middleware, on every path and for every method. *)
Lemma handle_rejected (P : platform) (k : clock) (rq : request)
      (s : gmap string value) (e : error) :
  req_payload rq = Unparseable e ->
  handle P k rq s =
    ([err_stack e], s,
     Answered (Json 500 (VObj {[ "error" := VStr "Something went wrong!" ]}))).
Proof.
  intros Hpl. unfold handle, App.app. cbn [dispatch].
  unfold json. rewrite Hpl. cbn [act body store written].
  unfold error_handler. cbn [act body store written].
  by rewrite res_json_error.
Qed.

(** What reaches the routes: a request whose body the parser did not
    reject and that the static middleware passes on. *)
Lemma handle_routes (P : platform) (k : clock) (rq : request)
      (s : gmap string value) :
  rejected (req_payload rq) = false ->
  served (public P) rq = PassOn ->
  handle P k rq s =
    dispatch (drop 2 (App.app P k)) None rq
             (default (unparsed_body P) (parsed (req_payload rq))) s.
Proof.
  intros Hpl Hstatic. unfold handle, App.app. cbn [drop].
  rewrite dispatch_use_next
    by (unfold json; destruct (req_payload rq); done).
  rewrite json_store, json_body.
  rewrite dispatch_use_next by (unfold static; by rewrite Hstatic).
  unfold static. by rewrite Hstatic.
Qed.

(** An error of the static middleware is answered by the error handling
    middleware. *)
Lemma handle_file_error (P : platform) (k : clock) (rq : request)
      (s : gmap string value) (e : error) :
  rejected (req_payload rq) = false ->
  served (public P) rq = FileError e ->
  handle P k rq s =
    ([err_stack e], s,
     Answered (Json 500 (VObj {[ "error" := VStr "Something went wrong!" ]}))).
Proof.
  intros Hpl Hstatic. unfold handle, App.app.
  rewrite dispatch_use_next
    by (unfold json; destruct (req_payload rq); done).
  rewrite json_store, json_body.
  cbn [dispatch]. unfold static. rewrite Hstatic.
  cbn [act body store written]. unfold error_handler.
  cbn [act body store written]. by rewrite res_json_error.
Qed.

(** What the static middleware answers with is the answer. *)
Lemma handle_static (P : platform) (k : clock) (rq : request)
      (s : gmap string value) (r : response) :
  rejected (req_payload rq) = false ->
  static_response (served (public P) rq) = Some r ->
  handle P k rq s = ([], s, Answered r).
Proof.
  intros Hpl Hstatic. unfold handle, App.app.
  rewrite dispatch_use_next
    by (unfold json; destruct (req_payload rq); done).
  rewrite json_store, json_body.
  cbn [dispatch]. unfold static.
  destruct (served (public P) rq); by simplify_eq/=.
Qed.

Lemma path_users_not_health (p : string) :
  path_matches "/api/users" p = true -> path_matches "/health" p = false.
Proof.
  intros H. apply path_matches_lower in H as [H|H];
    unfold path_matches; rewrite H; reflexivity.
Qed.

(** A request whose body the parser did not reject goes one of these
    ways, decided in this order. *)
Lemma handle_accepted (P : platform) (k : clock) (rq : request)
      (s : gmap string value) :
  rejected (req_payload rq) = false ->
  handle P k rq s =
    match served (public P) rq with
    | FileError e =>
        ([err_stack e], s,
         Answered (Json 500 (VObj {[
           "error" := VStr "Something went wrong!" ]})))
    | SendFile bytes => ([], s, Answered (File bytes))
    | SendRange bytes => ([], s, Answered (Partial bytes))
    | Redirect location => ([], s, Answered (Moved location))
    | Unchanged => ([], s, Answered NotModified)
    | PassOn =>
        let b := default (unparsed_body P) (parsed (req_payload rq)) in
        if route_matches "GET" "/health" rq then
          let health := VObj {[
            "status" := VStr "healthy";
            "timestamp" := VStr (IsoDate.toISOString (wall_ms k));
            "uptime" := VNum (Exact (uptime_s k)) ]} in
          ([], s,
           Answered (if fresh (validates P) rq 200 health
                     then NotModified else Json 200 health))
        else if route_matches "GET" "/api/users" rq then
          let users := VArr [
            VObj {[ "id" := VInt 1; "name" := VStr "John Doe";
                    "email" := VStr "john@example.com" ]};
            VObj {[ "id" := VInt 2; "name" := VStr "Jane Smith";
                    "email" := VStr "jane@example.com" ]} ] in
          ([], s,
           Answered (if fresh (validates P) rq 200 users
                     then NotModified else Json 200 users))
        else if route_matches "POST" "/api/users" rq then
          match destructure (frames P) "name" "req.body" b with
          | inl e =>
              ([err_stack e], s,
               Answered (Json 500 (VObj {[
                 "error" := VStr "Something went wrong!" ]})))
          | inr _ =>
              ([], s, Answered
                 (if truthy (get "name" b) && truthy (get "email" b)
                  then Json 201 (VObj {[
                         "id" := VInt (wall_ms k);
                         "name" := jsonify (get "name" b);
                         "email" := jsonify (get "email" b) ]})
                  else Json 400 (VObj {[
                         "error" := VStr "Name and email are required" ]})))
          end
        else
          ([], s, Answered (Json 404 (VObj {[
             "error" := VStr "Route not found" ]})))
    end.
Proof.
  intros Hrej.
  destruct (served (public P) rq) as [|e|bytes|bytes|location|] eqn:Hstatic.
  2: { by apply handle_file_error. }
  2-5: by apply handle_static; [|rewrite Hstatic].
  rewrite (handle_routes P k rq s Hrej Hstatic).
  set (b := default (unparsed_body P) (parsed (req_payload rq))).
  cbv zeta. clearbody b.
  cbn [drop App.app dispatch].
  destruct (route_matches "GET" "/health" rq).
  { unfold get_health. cbn [act body store written].
    unfold res_json. by rewrite jsonify_health. }
  destruct (route_matches "GET" "/api/users" rq).
  { unfold get_users. cbn [act body store written].
    unfold res_json. by rewrite jsonify_users. }
  destruct (route_matches "POST" "/api/users" rq) eqn:Hroute.
  2: { unfold not_found. cbn [act body store written].
       by rewrite res_json_error. }
  pose proof Hroute as Hm. apply andb_prop in Hm as [Hm _].
  apply method_matches_post in Hm.
  unfold post_users, destructure. destruct (nullish b) eqn:Hnull.
  { cbn [act body store written]. unfold error_handler.
    cbn [act body store written]. by rewrite res_json_error. }
  destruct (truthy (get "name" b)) eqn:Hname;
    destruct (truthy (get "email" b)) eqn:Hemail;
    cbn [negb orb andb act body store written];
    rewrite res_json_post by done; try reflexivity.
  by rewrite jsonify_new_user.
Qed.


(** Every request goes one of these ways, decided in this order. *)
Lemma handle_cases (P : platform) (k : clock) (rq : request)
      (s : gmap string value) :
  handle P k rq s =
    match req_payload rq with
    | Unparseable e =>
        ([err_stack e], s,
         Answered (Json 500 (VObj {[ "error" := VStr "Something went wrong!" ]})))
    | _ =>
        match served (public P) rq with
        | FileError e =>
            ([err_stack e], s,
             Answered (Json 500 (VObj {[
               "error" := VStr "Something went wrong!" ]})))
        | SendFile bytes => ([], s, Answered (File bytes))
        | SendRange bytes => ([], s, Answered (Partial bytes))
        | Redirect location => ([], s, Answered (Moved location))
        | Unchanged => ([], s, Answered NotModified)
        | PassOn =>
            let b := default (unparsed_body P) (parsed (req_payload rq)) in
            if route_matches "GET" "/health" rq then
              let health := VObj {[
                "status" := VStr "healthy";
                "timestamp" := VStr (IsoDate.toISOString (wall_ms k));
                "uptime" := VNum (Exact (uptime_s k)) ]} in
              ([], s,
               Answered (if fresh (validates P) rq 200 health
                         then NotModified else Json 200 health))
            else if route_matches "GET" "/api/users" rq then
              let users := VArr [
                VObj {[ "id" := VInt 1; "name" := VStr "John Doe";
                        "email" := VStr "john@example.com" ]};
                VObj {[ "id" := VInt 2; "name" := VStr "Jane Smith";
                        "email" := VStr "jane@example.com" ]} ] in
              ([], s,
               Answered (if fresh (validates P) rq 200 users
                         then NotModified else Json 200 users))
            else if route_matches "POST" "/api/users" rq then
              match destructure (frames P) "name" "req.body" b with
              | inl e =>
                  ([err_stack e], s,
                   Answered (Json 500 (VObj {[
                     "error" := VStr "Something went wrong!" ]})))
              | inr _ =>
                  ([], s, Answered
                     (if truthy (get "name" b) && truthy (get "email" b)
                      then Json 201 (VObj {[
                             "id" := VInt (wall_ms k);
                             "name" := jsonify (get "name" b);
                             "email" := jsonify (get "email" b) ]})
                      else Json 400 (VObj {[
                             "error" := VStr "Name and email are required" ]})))
              end
            else
              ([], s, Answered (Json 404 (VObj {[
                 "error" := VStr "Route not found" ]})))
        end
    end.
Proof.
  destruct (rejected (req_payload rq)) eqn:Hrej.
  - destruct (req_payload rq) as [|e|props|items] eqn:Hpl; try discriminate.
    by apply handle_rejected.
  - rewrite handle_accepted by done. by destruct (req_payload rq).
Qed.

(** No request changes the shared state. *)
Lemma handle_store (P : platform) (k : clock) (rq : request)
      (s : gmap string value) :
  snd (fst (handle P k rq s)) = s.
Proof.
  rewrite handle_cases. cbv zeta. repeat case_match; reflexivity.
Qed.

(** No answer depends on the shared state. *)
Lemma reply_store (P : platform) (k : clock) (rq : request)
      (s1 s2 : gmap string value) :
  reply P k rq s1 = reply P k rq s2.
Proof.
  unfold reply. rewrite !handle_cases. cbv zeta.
  repeat case_match; reflexivity.
Qed.

Lemma handle_lines_store (P : platform) (k : clock) (rq : request)
      (s1 s2 : gmap string value) :
  fst (fst (handle P k rq s1)) = fst (fst (handle P k rq s2)).
Proof.
  rewrite !handle_cases. cbv zeta. repeat case_match; reflexivity.
Qed.

(** Once the parser has accepted a body, the POST route answers 201 or
    400 on nothing but the truthiness of [name] and [email]. *)
Lemma handle_post_users (P : platform) (k : clock) (rq : request)
      (s : gmap string value) (b : value) :
  route_matches "POST" "/api/users" rq = true ->
  parsed (req_payload rq) = Some b ->
  handle P k rq s =
    ([], s, Answered
           (if truthy (get "name" b) && truthy (get "email" b)
            then Json 201 (VObj {[ "id" := VInt (wall_ms k);
                                   "name" := jsonify (get "name" b);
                                   "email" := jsonify (get "email" b) ]})
            else Json 400 (VObj {[
                   "error" := VStr "Name and email are required" ]}))).
Proof.
  intros Hroute Hparsed.
  pose proof Hroute as Hm. apply andb_prop in Hm as [Hm _].
  apply method_matches_post in Hm.
  rewrite handle_accepted by (by destruct (req_payload rq)).
  rewrite served_post by done.
  rewrite !route_get_not_post, Hroute by done.
  rewrite Hparsed. cbn [default]. unfold destructure.
  destruct (req_payload rq) as [|e|props|items]; simplify_eq/=; reflexivity.
Qed.

(** POST /api/users reads nothing but [name] and [email]. *)
Lemma handle_post_users_fields (P : platform) (k : clock)
      (rq1 rq2 : request) (s : gmap string value) (b1 b2 : value) :
  route_matches "POST" "/api/users" rq1 = true ->
  route_matches "POST" "/api/users" rq2 = true ->
  parsed (req_payload rq1) = Some b1 ->
  parsed (req_payload rq2) = Some b2 ->
  get "name" b1 = get "name" b2 ->
  get "email" b1 = get "email" b2 ->
  handle P k rq1 s = handle P k rq2 s.
Proof.
  intros Hr1 Hr2 Hb1 Hb2 Hname Hemail.
  rewrite (handle_post_users P k rq1 s b1), (handle_post_users P k rq2 s b2)
    by done.
  by rewrite Hname, Hemail.
Qed.

Lemma handle_get_health (P : platform) (k : clock) (rq : request)
      (s : gmap string value) :
  route_matches "GET" "/health" rq = true ->
  rejected (req_payload rq) = false ->
  served (public P) rq = PassOn ->
  let health := VObj {[
    "status" := VStr "healthy";
    "timestamp" := VStr (IsoDate.toISOString (wall_ms k));
    "uptime" := VNum (Exact (uptime_s k)) ]} in
  handle P k rq s =
    ([], s, Answered (if fresh (validates P) rq 200 health
                      then NotModified else Json 200 health)).
Proof.
  intros Hroute Hpl Hstatic.
  by rewrite handle_accepted, Hstatic, Hroute.
Qed.

Lemma handle_get_users (P : platform) (k : clock) (rq : request)
      (s : gmap string value) :
  route_matches "GET" "/api/users" rq = true ->
  rejected (req_payload rq) = false ->
  served (public P) rq = PassOn ->
  let users := VArr [
    VObj {[ "id" := VInt 1; "name" := VStr "John Doe";
            "email" := VStr "john@example.com" ]};
    VObj {[ "id" := VInt 2; "name" := VStr "Jane Smith";
            "email" := VStr "jane@example.com" ]} ] in
  handle P k rq s =
    ([], s, Answered (if fresh (validates P) rq 200 users
                      then NotModified else Json 200 users)).
Proof.
  intros Hroute Hpl Hstatic.
  assert (Hhealth : route_matches "GET" "/health" rq = false).
  { apply andb_prop in Hroute as [_ Hpath]. unfold route_matches.
    by rewrite (path_users_not_health _ Hpath), andb_false_r. }
  by rewrite handle_accepted, Hstatic, Hhealth, Hroute.
Qed.

Lemma handle_unmatched (P : platform) (k : clock) (rq : request)
      (s : gmap string value) :
  rejected (req_payload rq) = false ->
  served (public P) rq = PassOn ->
  route_matches "GET" "/health" rq = false ->
  route_matches "GET" "/api/users" rq = false ->
  route_matches "POST" "/api/users" rq = false ->
  handle P k rq s =
    ([], s, Answered (Json 404 (VObj {[ "error" := VStr "Route not found" ]}))).
Proof.
  intros Hpl Hstatic Hhealth Husers Hpost.
  by rewrite handle_accepted, Hstatic, Hhealth, Husers, Hpost.
Qed.

(** A request of the route's own method reaches it. *)
Lemma reaches_route (P : platform) (verb pattern : string) (rq : request) :
  reaches P verb pattern rq -> route_matches verb pattern rq = true.
Proof.
  intros (Hm & Hpath & _). unfold route_matches, method_matches.
  by rewrite Hm, String.eqb_refl, Hpath.
Qed.

End AppFacts.

(* ===================================================================== *)
(** ** Creating a user *)
(* ===================================================================== *)

Section CreateUser.
Import Js Express App.




(** The answer to Alice, written out. *)
Example post_users_alice :
  handle Sample.container Sample.evening Sample.alice ∅ =
    ([], ∅, Answered (Json 201 (VObj {[ "id" := VInt 1700000000000;
                                        "name" := VStr "Alice";
                                        "email" := VStr "a@x.com" ]}))).
Proof. reflexivity. Qed.

(** A Number that is not finite is lost at any depth. *)
Example jsonify_nested_infinity :
  jsonify (VArr [VNum (Infinity true); VObj {[ "n" := VNum NaN ]}; VInt 3])
  = VArr [VNull; VObj {[ "n" := VNull ]}; VInt 3].
Proof. reflexivity. Qed.

(** C2.  A POST /api/users whose parsed body lacks [name] or [email], or
    holds a falsy value for either, is answered 400 with
    [{error: "Name and email are required"}]; and this is the only test:
    the answer is that 400 exactly when one of the two is not truthy,
    whatever the type or the shape of the values. *)
Theorem post_users_requires_name_and_email (P : platform) (k : clock)
        (rq : request) (s : gmap string value) (b : value) :
  route_matches "POST" "/api/users" rq = true ->
  parsed (req_payload rq) = Some b ->
  reply P k rq s
    = Answered (Json 400 (VObj {[
        "error" := VStr "Name and email are required" ]}))
  <-> truthy (get "name" b) && truthy (get "email" b) = false.
Proof.
  intros Hroute Hparsed. unfold reply.
  rewrite (handle_post_users P k rq s b) by done. cbn [snd].
  destruct (truthy (get "name" b) && truthy (get "email" b));
    split; intros H; done.
Qed.

Lemma post_users_requires_name_and_email_witness :
  reply Sample.container Sample.evening Sample.only_name ∅
    = Answered (Json 400 (VObj {[
        "error" := VStr "Name and email are required" ]})).
Proof.
  apply (post_users_requires_name_and_email Sample.container Sample.evening
           Sample.only_name ∅ (VObj Sample.only_name_fields));
    [reflexivity | reflexivity | vm_compute; reflexivity].
Defined.

(** C10.  The answer to a successful POST /api/users is an object with
    the three properties [id], [name] and [email] and no other, and
    whatever else the request body holds has no effect: two requests
    whose bodies agree on [name] and [email], handled at the same clock
    reading, get the same answer. *)
Theorem post_users_ignores_extra_fields (P : platform) (k : clock)
        (rq1 rq2 : request) (s : gmap string value) (b1 b2 : value) :
  route_matches "POST" "/api/users" rq1 = true ->
  route_matches "POST" "/api/users" rq2 = true ->
  parsed (req_payload rq1) = Some b1 ->
  parsed (req_payload rq2) = Some b2 ->
  get "name" b1 = get "name" b2 ->
  get "email" b1 = get "email" b2 ->
  truthy (get "name" b1) = true ->
  truthy (get "email" b1) = true ->
  handle P k rq1 s = handle P k rq2 s /\
  exists props : gmap string value,
    reply P k rq1 s = Answered (Json 201 (VObj props)) /\
    dom props = ({[ "id"; "name"; "email" ]} : gset string).
Proof.
  intros Hr1 Hr2 Hb1 Hb2 Hname Hemail Htn Hte. split.
  - by apply (handle_post_users_fields P k rq1 rq2 s b1 b2).
  - unfold reply. rewrite (handle_post_users P k rq1 s b1) by done.
    rewrite Htn, Hte. cbn [snd andb]. eexists. split; [reflexivity|].
    rewrite !dom_insert_L, dom_singleton_L. reflexivity.
Qed.

Lemma post_users_ignores_extra_fields_witness :
  handle Sample.container Sample.evening Sample.alice ∅
  = handle Sample.container Sample.evening Sample.alice_admin ∅ /\
  exists props : gmap string value,
    reply Sample.container Sample.evening Sample.alice ∅
    = Answered (Json 201 (VObj props)) /\
    dom props = ({[ "id"; "name"; "email" ]} : gset string).
Proof.
  apply (post_users_ignores_extra_fields Sample.container Sample.evening
           Sample.alice Sample.alice_admin ∅
           (VObj Sample.alice_fields) (VObj Sample.alice_admin_fields));
    try reflexivity; vm_compute; reflexivity.
Defined.

(** The falsy values: the empty string, zero, [NaN], [null], [false],
    and a property that is not there at all. *)
Example post_users_falsy_names :
  Forall (fun v =>
            reply Sample.container Sample.evening
                  (Request "POST" "/api/users" ∅
                     (JsonObject {[ "name" := v; "email" := VStr "a@x.com" ]}))
                  ∅
            = Answered (Json 400 (VObj {[
                "error" := VStr "Name and email are required" ]})))
         [VStr ""; VInt 0; VNum NaN; VNull; VBool false; VUndefined].
Proof. repeat constructor. Qed.

Example post_users_empty_object :
  reply Sample.container Sample.evening
        (Request "POST" "/api/users" ∅ (JsonObject ∅)) ∅
  = Answered (Json 400 (VObj {[
      "error" := VStr "Name and email are required" ]})).
Proof. reflexivity. Qed.

(** Neither the type nor the shape of a truthy value is looked at. *)
Example post_users_no_shape_check :
  reply Sample.container Sample.evening
        (Request "POST" "/api/users" ∅
           (JsonObject {[ "name" := VInt 7; "email" := VArr [] ]})) ∅
  = Answered (Json 201 (VObj {[ "id" := VInt 1700000000000;
                                "name" := VInt 7; "email" := VArr [] ]})).
Proof. reflexivity. Qed.

End CreateUser.

(* ===================================================================== *)
(** ** A process lifetime *)
(* ===================================================================== *)

Section ServeFacts.
Import Js Express App.

Lemma serve_cons (P : platform) (log : list string) (s : gmap string value)
      (k : clock) (rq : request) (rest : list (clock * request)) :
  serve P log s ((k, rq) :: rest) =
    let '(lines, s', out) := handle P k rq s in
    let '(log', s'', outs) := serve P (log ++ lines) s' rest in
    (log', s'', out :: outs).
Proof. reflexivity. Qed.

(** The shared state comes out of a process lifetime as it went in. *)
Lemma serve_store (P : platform) (arrivals : list (clock * request)) :
  forall (log : list string) (s : gmap string value),
  snd (fst (serve P log s arrivals)) = s.
Proof.
  induction arrivals as [|[k rq] rest IH]; intros log s; [reflexivity|].
  rewrite serve_cons. pose proof (handle_store P k rq s) as Hs.
  destruct (handle P k rq s) as [[lines s'] out]. cbn [fst snd] in Hs.
  subst s'. specialize (IH (log ++ lines) s).
  destruct (serve P (log ++ lines) s rest) as [[log' s''] outs].
  exact IH.
Qed.

(** The answers of a process lifetime are the answers the requests get
    one by one, from whatever shared state. *)
Lemma serve_outcomes (P : platform) (arrivals : list (clock * request))
      (s0 : gmap string value) :
  forall (log : list string) (s : gmap string value),
  snd (serve P log s arrivals) = map (fun x => reply P x.1 x.2 s0) arrivals.
Proof.
  induction arrivals as [|[k rq] rest IH]; intros log s; [reflexivity|].
  rewrite serve_cons. cbn [map fst snd].
  rewrite (reply_store P k rq s0 s). unfold reply.
  pose proof (handle_store P k rq s) as Hs.
  destruct (handle P k rq s) as [[lines s'] out]. cbn [fst snd] in Hs.
  subst s'. specialize (IH (log ++ lines) s).
  destruct (serve P (log ++ lines) s rest) as [[log' s''] outs].
  cbn [snd] in *. by rewrite IH.
Qed.

Lemma serve_app (P : platform) (before after : list (clock * request)) :
  forall (log : list string) (s : gmap string value),
  serve P log s (before ++ after) =
    let '(log', s', outs) := serve P log s before in
    let '(log'', s'', outs') := serve P log' s' after in
    (log'', s'', outs ++ outs').
Proof.
  induction before as [|[k rq] rest IH]; intros log s.
  - change ([] ++ after) with after.
    change (serve P log s []) with (log, s, @nil outcome).
    cbv iota beta. destruct (serve P log s after) as [[? ?] ?]. reflexivity.
  - rewrite <- app_comm_cons, !serve_cons.
    destruct (handle P k rq s) as [[lines s'] out]. rewrite IH.
    destruct (serve P (log ++ lines) s' rest) as [[log' s''] outs].
    destruct (serve P log' s'' after) as [[? ?] ?]. reflexivity.
Qed.

(** Requests that reach one of the two GET routes write nothing. *)
Lemma serve_gets_console (P : platform) (gets : list (clock * request)) :
  Forall (fun x => reaches P "GET" "/health" x.2
                   \/ reaches P "GET" "/api/users" x.2) gets ->
  forall (log : list string) (s : gmap string value),
  fst (fst (serve P log s gets)) = log.
Proof.
  induction 1 as [|[k rq] rest Hx _ IH]; intros log s; [reflexivity|].
  rewrite serve_cons. cbn [snd] in Hx.
  assert (Hquiet : fst (fst (handle P k rq s)) = []).
  { destruct Hx as [Hr|Hr]; pose proof (reaches_route _ _ _ _ Hr) as Hroute;
      destruct Hr as (_ & _ & Hpl & Hst).
    - by rewrite handle_get_health.
    - by rewrite handle_get_users. }
  destruct (handle P k rq s) as [[lines s'] out]. cbn [fst] in Hquiet.
  subst lines. specialize (IH (log ++ []) s').
  destruct (serve P (log ++ []) s' rest) as [[log' s''] outs].
  cbn [fst] in *. by rewrite IH, app_nil_r.
Qed.


End ServeFacts.

(* ===================================================================== *)
(** ** Listing users, health, and the two fallbacks *)
(* ===================================================================== *)

Section ReadOnlyRoutes.
Import Js Express App.

(** C3, as the specification states it, fails: a GET /api/users that
    carries a body the JSON parser rejects never reaches the route and is
    answered 500. *)
Lemma get_users_broken_body_500 :
  req_method Sample.get_users_broken_body = "GET" /\
  req_path Sample.get_users_broken_body = "/api/users" /\
  handle Sample.container Sample.evening Sample.get_users_broken_body ∅ =
    ([err_stack Sample.syntax_error], ∅,
     Answered (Json 500 (VObj {[ "error" := VStr "Something went wrong!" ]}))).
Proof. repeat split. Qed.

(** C3, amended.  A GET /api/users that reaches the route (the parser
    did not reject its body and the static middleware passes it on) is
    answered with the array of the two fixed users, in this order, sent
    with status 200, or, to a conditional request that Express finds
    fresh, with a 304 that has no body; a request without validators
    always gets the 200.  Nothing is written, the shared state is left
    as it was, and the answer is the same after any requests served
    before it, POSTs included. *)
Theorem get_users_fixed_list (P : platform) (k : clock) (rq : request)
        (log : list string) (s : gmap string value)
        (before : list (clock * request)) :
  reaches P "GET" "/api/users" rq ->
  let users := VArr [
    VObj {[ "id" := VInt 1; "name" := VStr "John Doe";
            "email" := VStr "john@example.com" ]};
    VObj {[ "id" := VInt 2; "name" := VStr "Jane Smith";
            "email" := VStr "jane@example.com" ]} ] in
  let answer :=
    Answered (if fresh (validates P) rq 200 users
              then NotModified else Json 200 users) in
  handle P k rq s = ([], s, answer)
  /\ (unconditional rq -> answer = Answered (Json 200 users))
  /\ snd (serve P log s (before ++ [(k, rq)]))
     = snd (serve P log s before) ++ [answer].
Proof.
  intros Hr users answer. pose proof (reaches_route _ _ _ _ Hr) as Hroute.
  destruct Hr as (_ & _ & Hpl & Hst).
  pose proof (handle_get_users P k rq s Hroute Hpl Hst) as Hh.
  split; [exact Hh|]. split.
  - intros Hc. unfold answer. by rewrite fresh_unconditional.
  - rewrite !(serve_outcomes P _ s), map_app. cbn [map fst snd].
    unfold reply at 2. by rewrite Hh.
Qed.

Lemma get_users_fixed_list_witness :
  let users := VArr [
    VObj {[ "id" := VInt 1; "name" := VStr "John Doe";
            "email" := VStr "john@example.com" ]};
    VObj {[ "id" := VInt 2; "name" := VStr "Jane Smith";
            "email" := VStr "jane@example.com" ]} ] in
  let answer :=
    Answered (if fresh (validates Sample.container) Sample.get_users_plain
                       200 users
              then NotModified else Json 200 users) in
  handle Sample.container Sample.evening Sample.get_users_plain ∅
    = ([], ∅, answer)
  /\ (unconditional Sample.get_users_plain
      -> answer = Answered (Json 200 users))
  /\ snd (serve Sample.container [] ∅
            ([(Sample.evening, Sample.alice)]
               ++ [(Sample.evening, Sample.get_users_plain)]))
     = snd (serve Sample.container [] ∅ [(Sample.evening, Sample.alice)])
         ++ [answer].
Proof.
  apply (get_users_fixed_list Sample.container Sample.evening
           Sample.get_users_plain [] ∅ [(Sample.evening, Sample.alice)]).
  repeat split.
Defined.

(** The answer to a plain GET /api/users, written out. *)
Example get_users_plain_200 :
  handle Sample.container Sample.evening Sample.get_users_plain ∅ =
    ([], ∅, Answered (Json 200 (VArr [
       VObj {[ "id" := VInt 1; "name" := VStr "John Doe";
               "email" := VStr "john@example.com" ]};
       VObj {[ "id" := VInt 2; "name" := VStr "Jane Smith";
               "email" := VStr "jane@example.com" ]} ]))).
Proof. reflexivity. Qed.

(** C4, as the specification states it, fails: a GET /health that
    carries a body the JSON parser rejects is answered 500, so the
    endpoint does have a failure condition. *)
Lemma get_health_broken_body_500 :
  req_method Sample.get_health_broken_body = "GET" /\
  req_path Sample.get_health_broken_body = "/health" /\
  handle Sample.container Sample.evening Sample.get_health_broken_body ∅ =
    ([err_stack Sample.syntax_error], ∅,
     Answered (Json 500 (VObj {[ "error" := VStr "Something went wrong!" ]}))).
Proof. repeat split. Qed.

(** The static middleware comes first as well: with a file
    [public/health] the route is never reached, and with a directory
    [public/health/] the request is redirected. *)
Example get_health_shadowed :
  handle Sample.shadowed Sample.evening Sample.get_health_plain ∅
  = ([], ∅, Answered (File [Byte.x6f; Byte.x6b])).
Proof. reflexivity. Qed.

Example get_health_redirected :
  handle Sample.with_directory Sample.evening Sample.get_health_plain ∅
  = ([], ∅, Answered (Moved "/health/")).
Proof. reflexivity. Qed.

(** A health check that carries a validator Express finds fresh is
    answered 304. *)
Example get_health_not_modified :
  handle Sample.caching Sample.evening Sample.get_health_if_none_match ∅
  = ([], ∅, Answered NotModified).
Proof. reflexivity. Qed.

(** C4, amended.  A GET /health that reaches the route is answered with
    an object of exactly three properties, sent with status 200 (or, to
    a conditional request that Express finds fresh, with a 304 that has
    no body): [status] is ["healthy"], [timestamp] is the wall clock
    reading in the ISO format (read back, it is that reading), and
    [uptime] is the Number [process.uptime()] returns, the uptime of the
    process in seconds, which is not negative.  Nothing is written. *)
Theorem get_health_healthy (P : platform) (k : clock) (rq : request)
        (s : gmap string value) :
  reaches P "GET" "/health" rq ->
  running k ->
  let health := VObj {[
    "status" := VStr "healthy";
    "timestamp" := VStr (IsoDate.toISOString (wall_ms k));
    "uptime" := VNum (Exact (uptime_s k)) ]} in
  let answer :=
    Answered (if fresh (validates P) rq 200 health
              then NotModified else Json 200 health) in
  handle P k rq s = ([], s, answer)
  /\ (unconditional rq -> answer = Answered (Json 200 health))
  /\ health_reading (Answered (Json 200 health))
     = Some (uptime_s k, wall_ms k)
  /\ (0 <= uptime_s k)%Qc.
Proof.
  intros Hr [Hwall Hup] health answer.
  pose proof (reaches_route _ _ _ _ Hr) as Hroute.
  destruct Hr as (_ & _ & Hpl & Hst). repeat split.
  - by apply handle_get_health.
  - intros Hc. unfold answer. by rewrite fresh_unconditional.
  - cbn [health_reading health].
    rewrite lookup_insert_ne, lookup_insert_ne, lookup_singleton_eq by done.
    rewrite lookup_insert_ne, lookup_insert_eq by done.
    by rewrite parse_toISOString.
  - exact Hup.
Qed.

Lemma get_health_healthy_witness :
  let health := VObj {[
    "status" := VStr "healthy";
    "timestamp" := VStr (IsoDate.toISOString (wall_ms Sample.evening));
    "uptime" := VNum (Exact (uptime_s Sample.evening)) ]} in
  let answer :=
    Answered (if fresh (validates Sample.container) Sample.get_health_plain
                       200 health
              then NotModified else Json 200 health) in
  handle Sample.container Sample.evening Sample.get_health_plain ∅
    = ([], ∅, answer)
  /\ (unconditional Sample.get_health_plain
      -> answer = Answered (Json 200 health))
  /\ health_reading (Answered (Json 200 health))
     = Some (uptime_s Sample.evening, wall_ms Sample.evening)
  /\ (0 <= uptime_s Sample.evening)%Qc.
Proof.
  apply (get_health_healthy Sample.container Sample.evening
           Sample.get_health_plain ∅).
  - repeat split.
  - split; [unfold IsoDate.valid_time; simpl; lia | done].
Defined.

(** The answer to a plain GET /health, written out. *)
Example get_health_plain_200 :
  handle Sample.container Sample.evening Sample.get_health_plain ∅ =
    ([], ∅, Answered (Json 200 (VObj {[
       "status" := VStr "healthy";
       "timestamp" := VStr "2023-11-14T22:13:20.000Z";
       "uptime" := VInt 12 ]}))).
Proof. reflexivity. Qed.




(** A path the static middleware redirects is not answered 404. *)
Example directory_not_404 :
  handle Sample.with_directory Sample.evening
         (Request "GET" "/docs" ∅ NoPayload) ∅
  = ([], ∅, Answered (Moved "/docs/")).
Proof. reflexivity. Qed.




(** The three ways in which the guarded layers raise: the parser rejects
    the body, the static middleware fails on a file, and the
    destructuring of [req.body] in the POST route throws. *)
Example guarded_raises_parser :
  dispatch (guarded Sample.container Sample.evening) None
           Sample.get_users_broken_body VUndefined ∅
  = ([], ∅, Unanswered (Some Sample.syntax_error) (VObj ∅)).
Proof. reflexivity. Qed.

Example guarded_raises_static :
  dispatch (guarded Sample.unreadable Sample.evening) None
           Sample.get_logo VUndefined ∅
  = ([], ∅, Unanswered (Some Sample.access_error) (VObj ∅)).
Proof. reflexivity. Qed.

Example guarded_raises_route :
  exists e : error,
    err_name e = "TypeError" /\
    dispatch (guarded Sample2.container5 Sample.evening) None
             Sample2.post_no_body VUndefined ∅
    = ([], ∅, Unanswered (Some e) VUndefined).
Proof. eexists. split; [|reflexivity]. reflexivity. Qed.

Example unreadable_file_500 :
  handle Sample.unreadable Sample.evening Sample.get_logo ∅
  = ([err_stack Sample.access_error], ∅,
     Answered (Json 500 (VObj {[ "error" := VStr "Something went wrong!" ]}))).
Proof. reflexivity. Qed.

(** A POST /api/users without any body is answered 400 where Express
    leaves [req.body] an empty object, as in [Sample.container]. *)
Example post_users_no_body_express4 :
  handle Sample.container Sample.evening Sample2.post_no_body ∅
  = ([], ∅, Answered (Json 400 (VObj {[
           "error" := VStr "Name and email are required" ]}))).
Proof. reflexivity. Qed.

(** Under an Express release that leaves [req.body] undefined, the
    destructuring throws and the request is answered 500. *)
Example post_users_no_body_express5 :
  handle Sample2.container5 Sample.evening Sample2.post_no_body ∅
  = (["TypeError: Cannot destructure property 'name' of 'req.body' as it is undefined. at src/app.js"],
     ∅,
     Answered (Json 500 (VObj {[ "error" := VStr "Something went wrong!" ]}))).
Proof. reflexivity. Qed.

End ReadOnlyRoutes.

(* ===================================================================== *)
(** ** Successive requests, and loading the file *)
(* ===================================================================== *)

Section Lifetime.
Import Js Express App.




(** A handler that writes to the shared state is seen by the next
    request: served twice, [Sample.remember] gives two different
    answers. *)
Example remembering_requests_depend :
  process Sample.remembering [] ∅
          [ (Sample.evening, Sample.get_health_plain);
            (Sample.evening, Sample.get_health_plain) ]
  = ([], {[ "seen" := VBool true ]},
     [ Answered (Json 200 (VBool false)); Answered (Json 200 (VBool true)) ]).
Proof. reflexivity. Qed.

(** C8.  Nothing a request does is seen by another request.  No layer
    of the application writes to the shared state, which comes out of
    any sequence of requests as it went in; the answers of a process
    lifetime are, one by one, the answers each request gets on its own,
    from whatever shared state, whatever was served before and whatever
    the console holds.  In particular requests that reach GET /health or
    GET /api/users leave the console as it was as well, and serving any
    number of them first changes neither the console nor the answers
    that follow. *)
Theorem requests_independent (P : platform) (log : list string)
        (s s0 : gmap string value) (gets arrivals : list (clock * request)) :
  Forall (fun x => reaches P "GET" "/health" x.2
                   \/ reaches P "GET" "/api/users" x.2) gets ->
  snd (fst (serve P log s arrivals)) = s
  /\ snd (serve P log s arrivals)
     = map (fun x => reply P x.1 x.2 s0) arrivals
  /\ fst (serve P log s gets) = (log, s)
  /\ fst (serve P log s (gets ++ arrivals)) = fst (serve P log s arrivals)
  /\ drop (List.length gets) (snd (serve P log s (gets ++ arrivals)))
     = snd (serve P log s arrivals).
Proof.
  intros Hgets. pose proof (serve_gets_console P gets Hgets log s) as Hlog.
  pose proof (serve_store P gets log s) as Hst.
  split; [apply serve_store|]. split; [apply serve_outcomes|].
  pose proof (serve_outcomes P gets s log s) as Hlen.
  rewrite serve_app.
  destruct (serve P log s gets) as [[log' s'] outs]. cbn [fst snd] in *.
  subst log' s'. split; [reflexivity|].
  destruct (serve P log s arrivals) as [[log'' s''] outs']. cbn [fst snd].
  split; [reflexivity|].
  replace (List.length gets) with (List.length outs)
    by (by rewrite Hlen, length_map).
  by rewrite drop_app_length.
Qed.

Lemma requests_independent_witness :
  snd (fst (serve Sample.container [] ∅ [(Sample.evening, Sample.alice)])) = ∅
  /\ snd (serve Sample.container [] ∅ [(Sample.evening, Sample.alice)])
     = map (fun x => reply Sample.container x.1 x.2
                           {[ "seen" := VBool true ]})
           [(Sample.evening, Sample.alice)]
  /\ fst (serve Sample.container [] ∅ Sample.two_gets) = ([], ∅)
  /\ fst (serve Sample.container [] ∅
            (Sample.two_gets ++ [(Sample.evening, Sample.alice)]))
     = fst (serve Sample.container [] ∅ [(Sample.evening, Sample.alice)])
  /\ drop (List.length Sample.two_gets)
          (snd (serve Sample.container [] ∅
                  (Sample.two_gets ++ [(Sample.evening, Sample.alice)])))
     = snd (serve Sample.container [] ∅ [(Sample.evening, Sample.alice)]).
Proof.
  apply (requests_independent Sample.container [] ∅
           {[ "seen" := VBool true ]} Sample.two_gets
           [(Sample.evening, Sample.alice)]).
  constructor; [left; repeat split|].
  constructor; [right; repeat split | constructor].
Defined.

(** C9.  Loaded by another module, the file starts no listener and
    writes nothing: it only exports the application.  Whatever the way
    it is loaded, a server listens only if the file is run as the main
    module and [app.listen] could bind, and then on the port taken from
    [PORT], or on 3000 when [PORT] is unset or empty; the startup line
    is written only once the server listens. *)
Theorem listen_only_as_main (P : platform) (is_main : bool) :
  (is_main = false -> load P is_main = Loaded None [] None (Some App.app))
  /\ (forall p : string + Z,
        listening (load P is_main) = Some p <->
        is_main = true /\ listen P (port P) = Bound /\ p = port P)
  /\ (startup_log (load P is_main) <> [] ->
      listening (load P is_main) = Some (port P)
      /\ startup_log (load P is_main)
         = ["Server running on port " +:+ port_text (port P)])
  /\ port P = match PORT P with
              | Some s => if bool_decide (s = "") then inr 3000 else inl s
              | None => inr 3000
              end.
Proof.
  split; [by intros ->|]. split; [|split].
  - intros p. unfold load.
    destruct is_main; [|cbn; split; [done | by intros [? _]]].
    destruct (listen P (port P)); cbn; split;
      try done; try (by intros (_ & ? & _)).
    + intros [= <-]. done.
    + by intros (_ & _ & ->).
  - unfold load. destruct is_main; [|done].
    by destruct (listen P (port P)).
  - unfold port. destruct (PORT P) as [s|]; [|reflexivity].
    cbn [truthy]. by destruct (bool_decide (s = "")).
Qed.

Lemma listen_only_as_main_witness :
  (false = false ->
   load Sample.on_8080 false = Loaded None [] None (Some App.app))
  /\ (forall p : string + Z,
        listening (load Sample.on_8080 false) = Some p <->
        false = true /\ listen Sample.on_8080 (port Sample.on_8080) = Bound
        /\ p = port Sample.on_8080)
  /\ (startup_log (load Sample.on_8080 false) <> [] ->
      listening (load Sample.on_8080 false) = Some (port Sample.on_8080)
      /\ startup_log (load Sample.on_8080 false)
         = ["Server running on port "
            +:+ port_text (port Sample.on_8080)])
  /\ port Sample.on_8080
     = match PORT Sample.on_8080 with
       | Some s => if bool_decide (s = "") then inr 3000 else inl s
       | None => inr 3000
       end.
Proof. apply (listen_only_as_main Sample.on_8080 false). Defined.

Example port_default :
  port Sample.container = inr 3000
  /\ load Sample.container true
     = Loaded (Some (inr 3000)) ["Server running on port 3000"] None
              (Some App.app).
Proof. split; reflexivity. Qed.

Example port_from_environment :
  port Sample.on_8080 = inl "8080"
  /\ load Sample.on_8080 true
     = Loaded (Some (inl "8080")) ["Server running on port 8080"] None
              (Some App.app).
Proof. split; reflexivity. Qed.

(** With [PORT=99999] the call to [app.listen] throws: nothing listens,
    nothing is written, and the last line of the file is not reached. *)
Example port_out_of_range :
  load Sample.bad_port true
  = Loaded None [] (Some Sample.bad_port_error) None.
Proof. reflexivity. Qed.

End Lifetime.

(* ===================================================================== *)
(** ** The application as a whole *)
(* ===================================================================== *)

Section WholeApp.
Import Js Express App Probe.

(** X1.  The static middleware comes before the routes: whatever it
    answers a GET or a HEAD with (a file of [public/], a range of it, a
    redirect for a directory, a 304) is the answer of the application,
    whatever the routes say about the path, provided the body parser did
    not reject the request. *)
Theorem static_file_served_first (P : platform) (k : clock) (rq : request)
        (s : gmap string value) (r : response) :
  rejected (req_payload rq) = false ->
  static_response (served (public P) rq) = Some r ->
  handle P k rq s = ([], s, Answered r).
Proof. apply handle_static. Qed.

Lemma static_file_served_first_witness :
  handle Sample.shadowed Sample.evening Sample.get_health_plain ∅
  = ([], ∅, Answered (File [Byte.x6f; Byte.x6b])).
Proof.
  apply (static_file_served_first Sample.shadowed Sample.evening
           Sample.get_health_plain ∅ (File [Byte.x6f; Byte.x6b]));
    reflexivity.
Defined.

Lemma reply_answered (P : platform) (k : clock) (rq : request)
      (s : gmap string value) :
  exists r : response, reply P k rq s = Answered r.
Proof.
  unfold reply. rewrite handle_cases. cbv zeta.
  repeat case_match; cbn [snd]; eexists; reflexivity.
Qed.

(** X2.  No request is left to Express' final handler: in a process
    lifetime every request is answered by a layer of the application,
    one answer per request. *)
Theorem every_request_answered (P : platform) (log : list string)
        (s : gmap string value) (arrivals : list (clock * request)) :
  exists answers : list response,
    snd (serve P log s arrivals) = Answered <$> answers
    /\ List.length answers = List.length arrivals.
Proof.
  rewrite (serve_outcomes P _ s).
  induction arrivals as [|[k rq] rest (answers & Heq & Hlen)].
  - by exists [].
  - destruct (reply_answered P k rq s) as [r Hr].
    exists (r :: answers). cbn [map fst snd]. rewrite Hr, Heq.
    split; [reflexivity | by cbn; rewrite Hlen].
Qed.

(** X3.  The statuses the application answers JSON with are 200, 201,
    400, 404 and 500 and no other, and with 400, 404 and 500 the body is
    an object with the single property [error] holding the fixed message
    of that status. *)
Theorem answers_well_formed (P : platform) (k : clock) (rq : request)
        (s : gmap string value) (status : Z) (v : value) :
  reply P k rq s = Answered (Json status v) ->
  (status = 200 \/ status = 201) \/
  exists msg : string,
    v = VObj {[ "error" := VStr msg ]} /\
    ((status = 400 /\ msg = "Name and email are required")
     \/ (status = 404 /\ msg = "Route not found")
     \/ (status = 500 /\ msg = "Something went wrong!")).
Proof.
  unfold reply. rewrite handle_cases. cbv zeta.
  repeat case_match; cbn [snd]; intros Heq; simplify_eq; eauto 10.
Qed.

Lemma answers_well_formed_witness :
  (400 = 200 \/ 400 = 201) \/
  exists msg : string,
    VObj {[ "error" := VStr "Name and email are required" ]}
    = VObj {[ "error" := VStr msg ]} /\
    ((400 = 400 /\ msg = "Name and email are required")
     \/ (400 = 404 /\ msg = "Route not found")
     \/ (400 = 500 /\ msg = "Something went wrong!")).
Proof.
  apply (answers_well_formed Sample.container Sample.evening
           Sample.only_name ∅).
  reflexivity.
Defined.



(** X6.  A POST /api/users that carries no JSON body at all creates
    nothing.  Where Express leaves [req.body] an empty object it is
    answered 400 like an empty body; where Express leaves it undefined or
    null the destructuring throws a [TypeError], whose stack is printed,
    and the answer is 500. *)
Theorem post_without_body (P : platform) (k : clock) (rq : request)
        (s : gmap string value) :
  route_matches "POST" "/api/users" rq = true ->
  req_payload rq = NoPayload ->
  (unparsed_body P = VObj ∅ ->
   handle P k rq s =
     ([], s, Answered (Json 400 (VObj {[
               "error" := VStr "Name and email are required" ]}))))
  /\ (nullish (unparsed_body P) = true ->
      exists e : error,
        err_name e = "TypeError" /\
        handle P k rq s =
          ([err_stack e], s,
           Answered (Json 500 (VObj {[
             "error" := VStr "Something went wrong!" ]})))).
Proof.
  intros Hroute Hpl.
  pose proof Hroute as Hm. apply andb_prop in Hm as [Hm _].
  apply method_matches_post in Hm.
  rewrite handle_accepted by (by rewrite Hpl).
  rewrite served_post, !route_get_not_post, Hroute by done.
  rewrite Hpl. cbn [parsed default]. unfold destructure. split.
  - intros ->. reflexivity.
  - intros ->. eexists. split; [|reflexivity]. reflexivity.
Qed.

Lemma post_without_body_witness :
  (unparsed_body Sample.container = VObj ∅ ->
   handle Sample.container Sample.evening Sample2.post_no_body ∅ =
     ([], ∅, Answered (Json 400 (VObj {[
               "error" := VStr "Name and email are required" ]}))))
  /\ (nullish (unparsed_body Sample.container) = true ->
      exists e : error,
        err_name e = "TypeError" /\
        handle Sample.container Sample.evening Sample2.post_no_body ∅ =
          ([err_stack e], ∅,
           Answered (Json 500 (VObj {[
             "error" := VStr "Something went wrong!" ]})))).
Proof.
  apply (post_without_body Sample.container Sample.evening
           Sample2.post_no_body ∅); reflexivity.
Defined.

(** X7.  Only GET, HEAD and POST are served: a request with any other
    method whose body the parser did not reject is answered 404, on
    every path, the paths of the routes and of static files included. *)
Theorem other_methods_not_found (P : platform) (k : clock) (rq : request)
        (s : gmap string value) :
  rejected (req_payload rq) = false ->
  req_method rq <> "GET" -> req_method rq <> "HEAD" ->
  req_method rq <> "POST" ->
  handle P k rq s =
    ([], s, Answered (Json 404 (VObj {[ "error" := VStr "Route not found" ]}))).
Proof.
  intros Hpl Hget Hhead Hpost.
  apply String.eqb_neq in Hget, Hhead, Hpost.
  apply handle_unmatched; [done | ..];
    unfold served, route_matches, method_matches;
    by rewrite ?Hget, ?Hhead, ?Hpost.
Qed.

Lemma other_methods_not_found_witness :
  handle Sample.container Sample.evening Sample2.delete_users ∅ =
    ([], ∅, Answered (Json 404 (VObj {[ "error" := VStr "Route not found" ]}))).
Proof.
  apply (other_methods_not_found Sample.container Sample.evening
           Sample2.delete_users ∅); [reflexivity | discriminate..].
Defined.

Lemma VInt_inj (a b : Z) : VInt a = VInt b -> a = b.
Proof.
  unfold VInt. intros H.
  assert (Hq : Qc_of_Z a = Qc_of_Z b) by congruence.
  by apply Z2Qc_inj in Hq.
Qed.

(** X8.  Ids are not unique: the id of a created user is the wall clock
    reading and nothing else, so two users, however different, get the
    same id exactly when they are created in the same millisecond. *)
Theorem ids_follow_clock (P : platform) (k1 k2 : clock) (rq1 rq2 : request)
        (s1 s2 : gmap string value) (b1 b2 : value) :
  route_matches "POST" "/api/users" rq1 = true ->
  route_matches "POST" "/api/users" rq2 = true ->
  parsed (req_payload rq1) = Some b1 ->
  parsed (req_payload rq2) = Some b2 ->
  truthy (get "name" b1) && truthy (get "email" b1) = true ->
  truthy (get "name" b2) && truthy (get "email" b2) = true ->
  exists v1 v2 : value,
    reply P k1 rq1 s1 = Answered (Json 201 v1)
    /\ reply P k2 rq2 s2 = Answered (Json 201 v2)
    /\ (get "id" v1 = get "id" v2 <-> wall_ms k1 = wall_ms k2).
Proof.
  intros Hr1 Hr2 Hb1 Hb2 Ht1 Ht2. unfold reply.
  rewrite (handle_post_users P k1 rq1 s1 b1),
    (handle_post_users P k2 rq2 s2 b2) by done.
  rewrite Ht1, Ht2. cbn [snd]. do 2 eexists.
  split; [reflexivity|]. split; [reflexivity|].
  cbn [get]. rewrite !lookup_insert_eq. cbn [default].
  split; [apply VInt_inj | by intros ->].
Qed.

Lemma ids_follow_clock_witness :
  exists v1 v2 : value,
    reply Sample.container Sample.evening Sample.alice ∅
    = Answered (Json 201 v1)
    /\ reply Sample.container Sample.evening Sample2.bob ∅
       = Answered (Json 201 v2)
    /\ (get "id" v1 = get "id" v2
        <-> wall_ms Sample.evening = wall_ms Sample.evening).
Proof.
  apply (ids_follow_clock Sample.container Sample.evening Sample.evening
           Sample.alice Sample2.bob ∅ ∅
           (VObj Sample.alice_fields) (VObj Sample2.bob_fields));
    vm_compute; reflexivity.
Defined.

Lemma handle_lines (P : platform) (k : clock) (rq : request)
      (s : gmap string value) :
  List.length (fst (fst (handle P k rq s)))
  = if server_error (snd (handle P k rq s)) then 1%nat else 0%nat.
Proof.
  rewrite handle_cases. cbv zeta.
  repeat case_match; cbn in *; congruence.
Qed.

(** X9.  The console only grows, and by one line, the stack of the
    exception, for every request answered 500: after any sequence of
    requests it holds what it held before followed by as many lines as
    there were 500 answers. *)
Theorem console_counts_errors (P : platform) (s : gmap string value)
        (arrivals : list (clock * request)) :
  forall log : list string,
  exists lines : list string,
    fst (fst (serve P log s arrivals)) = log ++ lines
    /\ List.length lines
       = List.length (List.filter server_error
                        (snd (serve P log s arrivals))).
Proof.
  induction arrivals as [|[k rq] rest IH]; intros log.
  - exists []. by rewrite app_nil_r.
  - rewrite serve_cons. pose proof (handle_lines P k rq s) as Hlines.
    pose proof (handle_store P k rq s) as Hs.
    destruct (handle P k rq s) as [[out s'] o]. cbn [fst snd] in Hlines, Hs.
    subst s'. destruct (IH (log ++ out)) as (lines & Hlog & Hlen).
    destruct (serve P (log ++ out) s rest) as [[log' s''] outs].
    cbn [fst snd] in *. exists (out ++ lines).
    split; [by rewrite Hlog, (assoc_L (++))|].
    rewrite length_app, Hlines, Hlen. cbn [List.filter].
    destruct (server_error o); reflexivity.
Qed.

(** X10.  The container health check passes exactly when the static
    middleware passes its request on to the route, or answers it with a
    file [public/health]: a directory [public/health/] (a redirect) or
    a file error make the probe exit with 1.  Neither the Express
    default for [req.body] nor the clocks nor the shared state matter. *)
Theorem healthcheck_passes (P : platform) (k : clock)
        (s : gmap string value) :
  healthcheck P k s = 0 <->
  public P "/health" (req_headers probe) = PassOn
  \/ exists bytes : list Byte.byte,
       public P "/health" (req_headers probe) = SendFile bytes.
Proof.
  unfold healthcheck, reply. rewrite handle_accepted by reflexivity.
  change (served (public P) probe)
    with (public P "/health" (req_headers probe)).
  destruct (public P "/health" (req_headers probe))
    as [|e|bytes|bytes|location|]; cbv zeta.
  - replace (route_matches "GET" "/health" probe) with true by reflexivity.
    rewrite fresh_unconditional by reflexivity. split; [by left | done].
  - split; [done | by intros [H|[? H]]].
  - split; [right; by eexists | done].
  - split; [done | by intros [H|[? H]]].
  - split; [done | by intros [H|[? H]]].
  - split; [done | by intros [H|[? H]]].
Qed.

(** Against the container of the [Dockerfile] the probe passes; against
    a directory [public/health/] it does not. *)
Example healthcheck_container :
  healthcheck Sample.container Sample.evening ∅ = 0
  /\ healthcheck Sample.with_directory Sample.evening ∅ = 1.
Proof. split; reflexivity. Qed.

Lemma VStr_inj (s1 s2 : string) : VStr s1 = VStr s2 -> s1 = s2.
Proof. by intros [= H]. Qed.

Lemma toISOString_inj (t1 t2 : Z) :
  IsoDate.valid_time t1 -> IsoDate.valid_time t2 ->
  IsoDate.toISOString t1 = IsoDate.toISOString t2 -> t1 = t2.
Proof.
  intros H1 H2 Heq. apply (f_equal IsoDate.parse) in Heq.
  rewrite !parse_toISOString in Heq by done. by injection Heq.
Qed.

(** X11.  The timestamp of a health answer identifies the millisecond it
    was taken at: two health checks that reach the route and are
    answered with a body carry the same timestamp exactly when the wall
    clock read the same at both. *)
Theorem health_timestamp_identifies_instant (P1 P2 : platform)
        (k1 k2 : clock) (rq1 rq2 : request) (s1 s2 : gmap string value) :
  reaches P1 "GET" "/health" rq1 -> unconditional rq1 ->
  reaches P2 "GET" "/health" rq2 -> unconditional rq2 ->
  IsoDate.valid_time (wall_ms k1) ->
  IsoDate.valid_time (wall_ms k2) ->
  exists v1 v2 : value,
    reply P1 k1 rq1 s1 = Answered (Json 200 v1)
    /\ reply P2 k2 rq2 s2 = Answered (Json 200 v2)
    /\ (get "timestamp" v1 = get "timestamp" v2
        <-> wall_ms k1 = wall_ms k2).
Proof.
  intros Hr1 Hc1 Hr2 Hc2 Hv1 Hv2.
  pose proof (reaches_route _ _ _ _ Hr1) as Hroute1.
  pose proof (reaches_route _ _ _ _ Hr2) as Hroute2.
  destruct Hr1 as (_ & _ & Hpl1 & Hst1), Hr2 as (_ & _ & Hpl2 & Hst2).
  unfold reply.
  rewrite !handle_get_health by done.
  rewrite !fresh_unconditional by done. cbn [snd]. do 2 eexists.
  split; [reflexivity|]. split; [reflexivity|].
  cbn [get]. rewrite !lookup_insert_ne, !lookup_insert_eq by done.
  cbn [default]. split; [|by intros ->].
  intros Heq. apply VStr_inj in Heq. by apply toISOString_inj.
Qed.

Lemma health_timestamp_identifies_instant_witness :
  exists v1 v2 : value,
    reply Sample.container Sample.evening Sample.get_health_plain ∅
    = Answered (Json 200 v1)
    /\ reply Sample.container Sample.later Sample.get_health_plain ∅
       = Answered (Json 200 v2)
    /\ (get "timestamp" v1 = get "timestamp" v2
        <-> wall_ms Sample.evening = wall_ms Sample.later).
Proof.
  apply (health_timestamp_identifies_instant Sample.container
           Sample.container Sample.evening Sample.later
           Sample.get_health_plain Sample.get_health_plain ∅ ∅).
  - repeat split.
  - reflexivity.
  - repeat split.
  - reflexivity.
  - unfold IsoDate.valid_time; simpl; lia.
  - unfold IsoDate.valid_time; simpl; lia.
Defined.

(** X12.  A body the parser rejects hides everything else: whatever the
    method, the path, the files under [public/] and the error, the
    request is answered with the same 500, and the console gets the
    stack of the parser's error and nothing more. *)
Theorem rejected_body_hides_routes (P1 P2 : platform) (k1 k2 : clock)
        (rq1 rq2 : request) (s1 s2 : gmap string value) (e1 e2 : error) :
  req_payload rq1 = Unparseable e1 ->
  req_payload rq2 = Unparseable e2 ->
  handle P1 k1 rq1 s1 =
    ([err_stack e1], s1,
     Answered (Json 500 (VObj {[ "error" := VStr "Something went wrong!" ]})))
  /\ reply P1 k1 rq1 s1 = reply P2 k2 rq2 s2.
Proof.
  intros H1 H2. unfold reply.
  by rewrite (handle_rejected P1 k1 rq1 s1 e1),
    (handle_rejected P2 k2 rq2 s2 e2).
Qed.

Lemma rejected_body_hides_routes_witness :
  handle Sample.shadowed Sample.evening Sample.get_health_broken_body ∅ =
    ([err_stack Sample.syntax_error], ∅,
     Answered (Json 500 (VObj {[ "error" := VStr "Something went wrong!" ]})))
  /\ reply Sample.shadowed Sample.evening Sample.get_health_broken_body ∅
     = reply Sample.container Sample.later Sample2.put_huge_body ∅.
Proof.
  apply (rejected_body_hides_routes Sample.shadowed Sample.container
           Sample.evening Sample.later Sample.get_health_broken_body
           Sample2.put_huge_body ∅ ∅ Sample.syntax_error Sample2.range_error);
    reflexivity.
Defined.

(** X13.  The application cannot tell HEAD from GET: the static
    middleware serves both, the two GET routes answer both and the POST
    route answers neither, so a HEAD is handled exactly as the GET for
    the same path, headers and body. *)
Theorem head_handled_as_get (P : platform) (k : clock) (path : string)
        (h : gmap string string) (p : payload) (s : gmap string value) :
  handle P k (Request "HEAD" path h p) s
  = handle P k (Request "GET" path h p) s.
Proof. rewrite !handle_cases. reflexivity. Qed.

(** X14.  Neither the [PORT] variable, nor what binding the port comes
    to, nor the call-stack text of the engine has any influence on an
    answer: the stack of an exception reaches the console only. *)
Theorem reply_ignores_port_and_frames (P : platform) (k : clock)
        (rq : request) (s : gmap string value) (port' : option string)
        (frames' : string) (listen' : string + Z -> listen_result) :
  reply (Platform port' (public P) (unparsed_body P) frames' (validates P)
                  listen')
        k rq s
  = reply P k rq s.
Proof.
  unfold reply. rewrite !handle_cases. cbv zeta.
  cbn [public unparsed_body App.frames validates]. unfold destructure.
  repeat case_match; simplify_eq; reflexivity.
Qed.

(** X15.  Files and redirects leave the service through the static
    middleware only: an answer that is a file, a range of a file or a
    redirect is the answer the static middleware gives for the path and
    the headers of the request, sent to a GET or a HEAD whose body the
    parser did not reject.  No other method and no route ever yields
    one. *)
Theorem file_only_from_public (P : platform) (k : clock) (rq : request)
        (s : gmap string value) (r : response) :
  reply P k rq s = Answered r ->
  match r with File _ | Partial _ | Moved _ => True | _ => False end ->
  rejected (req_payload rq) = false
  /\ (req_method rq = "GET" \/ req_method rq = "HEAD")
  /\ static_response (public P (req_path rq) (req_headers rq)) = Some r.
Proof.
  unfold reply. intros Heq Hr.
  destruct (rejected (req_payload rq)) eqn:Hrej.
  { destruct (req_payload rq) as [|e|props|items] eqn:Hpl; try discriminate.
    rewrite (handle_rejected P k rq s e) in Heq by done.
    by simplify_eq/=. }
  split; [done|]. rewrite handle_accepted in Heq by done.
  assert (Hs : served (public P) rq <> PassOn
               /\ static_response (served (public P) rq) = Some r).
  { revert Heq. cbv zeta.
    repeat case_match; cbn [snd]; intros Heq; by simplify_eq/=. }
  destruct Hs as [Hne Hs]. apply served_answer in Hne as [Hm Hserved].
  by rewrite <- Hserved.
Qed.

Lemma file_only_from_public_witness :
  rejected (req_payload Sample.get_health_plain) = false
  /\ (req_method Sample.get_health_plain = "GET"
      \/ req_method Sample.get_health_plain = "HEAD")
  /\ static_response
       (public Sample.shadowed (req_path Sample.get_health_plain)
               (req_headers Sample.get_health_plain))
     = Some (File [Byte.x6f; Byte.x6b]).
Proof.
  apply (file_only_from_public Sample.shadowed Sample.evening
           Sample.get_health_plain ∅ (File [Byte.x6f; Byte.x6b]));
    [reflexivity | exact I].
Defined.

(** X16.  The 404 is the answer of last resort and of nothing else: a
    request is answered 404 exactly when the parser did not reject its
    body, the static middleware passes it on and none of the three
    routes matches it. *)
Theorem not_found_iff_unmatched (P : platform) (k : clock) (rq : request)
        (s : gmap string value) :
  (exists v : value, reply P k rq s = Answered (Json 404 v)) <->
  rejected (req_payload rq) = false
  /\ served (public P) rq = PassOn
  /\ route_matches "GET" "/health" rq = false
  /\ route_matches "GET" "/api/users" rq = false
  /\ route_matches "POST" "/api/users" rq = false.
Proof.
  split.
  - unfold reply. intros [v Hv].
    destruct (rejected (req_payload rq)) eqn:Hrej.
    { destruct (req_payload rq) as [|e|props|items] eqn:Hpl;
        try discriminate.
      by rewrite (handle_rejected P k rq s e) in Hv. }
    rewrite handle_accepted in Hv by done. revert Hv. cbv zeta.
    repeat case_match; cbn [snd]; intros Heq; by simplify_eq.
  - intros (Hrej & Hs & Hh & Hu & Hp). unfold reply.
    rewrite handle_unmatched by done. by eexists.
Qed.

(** X17.  The 400 has one cause: a POST /api/users whose [req.body] can
    be destructured and does not hold both a truthy [name] and a truthy
    [email].  Nothing else is ever answered 400. *)
Theorem bad_request_iff_invalid_post (P : platform) (k : clock)
        (rq : request) (s : gmap string value) :
  (exists v : value, reply P k rq s = Answered (Json 400 v)) <->
  rejected (req_payload rq) = false
  /\ route_matches "POST" "/api/users" rq = true
  /\ nullish (default (unparsed_body P) (parsed (req_payload rq))) = false
  /\ truthy (get "name" (default (unparsed_body P) (parsed (req_payload rq))))
     && truthy (get "email"
                    (default (unparsed_body P) (parsed (req_payload rq))))
     = false.
Proof.
  unfold reply. destruct (rejected (req_payload rq)) eqn:Hrej.
  { split; [|by intros [? _]]. intros [v Hv].
    destruct (req_payload rq) as [|e|props|items] eqn:Hpl; try discriminate.
    by rewrite (handle_rejected P k rq s e) in Hv. }
  rewrite handle_accepted by done. cbv zeta. split.
  - intros [v Hv]. revert Hv. unfold destructure.
    repeat case_match; cbn [snd]; intros Heq; by simplify_eq.
  - intros (_ & Hroute & Hnull & Hfalsy).
    pose proof Hroute as Hm. apply andb_prop in Hm as [Hm _].
    apply method_matches_post in Hm.
    rewrite served_post, !route_get_not_post, Hroute by done.
    unfold destructure. rewrite Hnull, Hfalsy. by eexists.
Qed.

End WholeApp.

(* ===================================================================== *)
(** ** The shape of a timestamp *)
(* ===================================================================== *)

Section TimestampShape.
Import IsoDate.

(** A date of the calendar lies within its year. *)
Lemma make_day_within_year (y m d : Z) :
  1 <= m <= 12 -> 1 <= d <= days_in_month (in_leap_year y) m ->
  day_from_year y <= make_day y m d < day_from_year (y + 1).
Proof.
  intros Hm Hd.
  pose proof (january_first y) as Hjan.
  pose proof (march_first_leap y) as Hmar.
  unfold make_day.
  assert (Hcase : m = 1 \/ m = 2 \/ m = 3 \/ m = 4 \/ m = 5 \/ m = 6
                  \/ m = 7 \/ m = 8 \/ m = 9 \/ m = 10 \/ m = 11 \/ m = 12)
    by lia.
  destruct (in_leap_year y);
    destruct Hcase as [-> | [-> | [-> | [-> | [-> | [-> | [-> | [-> | [->
                      | [-> | [-> | ->]]]]]]]]]]];
    cbn [days_before_month days_in_month] in *; lia.
Qed.

Lemma day_from_year_bounds (y : Z) :
  (y <= 1970 -> day_from_year y <= 0)
  /\ (10000 <= y -> 2932897 <= day_from_year y).
Proof.
  unfold day_from_year. split; intros Hy;
    Z.to_euclidean_division_equations; lia.
Qed.

(** From 1970 to the end of the year 9999 the year has four digits. *)
Lemma four_digit_year (t : Z) :
  0 <= t < 253402300800000 -> 1970 <= year (fields_of_time t) <= 9999.
Proof.
  intros Ht. unfold fields_of_time.
  assert (Hdn : 0 <= t / msPerDay <= 2932896)
    by (unfold msPerDay; Z.to_euclidean_division_equations; lia).
  destruct (civil_from_days (t / msPerDay)) as [[y m] d] eqn:Hc.
  cbn [year].
  destruct (civil_fields _ _ _ _ Hc) as (Hmk & Hm & Hd).
  pose proof (make_day_within_year y m d Hm Hd) as Hin.
  pose proof (day_from_year_bounds y) as [_ Hhigh].
  pose proof (day_from_year_bounds (y + 1)) as [Hlow _].
  lia.
Qed.

(** X18.  For every instant from 1970 to the end of the year 9999 the
    timestamp has the fixed width of 24 characters, with the dashes, the
    [T], the colons and the dot at fixed places and the UTC designator
    [Z] at the end. *)
Theorem timestamp_fixed_width (t : Z) :
  0 <= t < 253402300800000 ->
  String.length (toISOString t) = 24%nat
  /\ String.get 4 (toISOString t) = Some "-"%char
  /\ String.get 7 (toISOString t) = Some "-"%char
  /\ String.get 10 (toISOString t) = Some "T"%char
  /\ String.get 13 (toISOString t) = Some ":"%char
  /\ String.get 16 (toISOString t) = Some ":"%char
  /\ String.get 19 (toISOString t) = Some "."%char
  /\ String.get 23 (toISOString t) = Some "Z"%char.
Proof.
  intros Ht. pose proof (four_digit_year t Ht) as Hy.
  unfold toISOString, format, year_string.
  replace ((0 <=? year (fields_of_time t))
           && (year (fields_of_time t) <=? 9999)) with true by lia.
  generalize (fields_of_time t). intros f. repeat split.
Qed.

Lemma timestamp_fixed_width_witness :
  String.length (toISOString 1700000000000) = 24%nat
  /\ String.get 4 (toISOString 1700000000000) = Some "-"%char
  /\ String.get 7 (toISOString 1700000000000) = Some "-"%char
  /\ String.get 10 (toISOString 1700000000000) = Some "T"%char
  /\ String.get 13 (toISOString 1700000000000) = Some ":"%char
  /\ String.get 16 (toISOString 1700000000000) = Some ":"%char
  /\ String.get 19 (toISOString 1700000000000) = Some "."%char
  /\ String.get 23 (toISOString 1700000000000) = Some "Z"%char.
Proof. apply (timestamp_fixed_width 1700000000000). lia. Defined.

End TimestampShape.
